(** * Tech Trend Blog: the request handlers of [functions/[[path]].ts]

    A shallow embedding of the two route files of the repository (the
    primary one, which serves the full page, and the legacy one, which
    serves [/api/meta]) together with the parts of the JavaScript
    runtime, of Hono and of D1 that they call. *)

From Stdlib Require Import ZArith NArith List Bool Ascii String Lia.
From Stdlib Require Import Permutation Sorted.
Import ListNotations.

Set Implicit Arguments.
Set Warnings "-register-all".
Local Open Scope list_scope.

(* ================================================================== *)
(** * The JavaScript runtime *)
(* ================================================================== *)

Module JS.

(** A JavaScript string is a finite sequence of 16-bit code units. *)
Definition jsstring : Type := list N.

(** ** String literals

    Literals are written as Rocq strings, which hold the UTF-8 bytes of
    the text; [utf16] decodes them into code units.  Inside a literal of
    this file an HTML attribute quote (code unit 34) is written as a
    backquote (code unit 96): no template of the source contains a
    backquote, so [lit] maps every 96 to 34. *)

Definition cont6 (acc b : N) : N := (acc * 64 + b mod 64)%N.

Definition surrogates (cp : N) : jsstring :=
  if (cp <? 0x10000)%N then [cp]
  else [(0xD800 + (cp - 0x10000) / 0x400)%N;
        (0xDC00 + (cp - 0x10000) mod 0x400)%N].

Fixpoint utf16 (bs : list N) : jsstring :=
  match bs with
  | [] => []
  | b0 :: r0 =>
    if (b0 <? 0x80)%N then b0 :: utf16 r0
    else match r0 with
    | [] => [0xFFFD%N]
    | b1 :: r1 =>
      if (b0 <? 0xE0)%N then cont6 (b0 mod 0x20) b1 :: utf16 r1
      else match r1 with
      | [] => [0xFFFD%N]
      | b2 :: r2 =>
        if (b0 <? 0xF0)%N
        then cont6 (cont6 (b0 mod 0x10) b1) b2 :: utf16 r2
        else match r2 with
        | [] => [0xFFFD%N]
        | b3 :: r3 =>
          surrogates (cont6 (cont6 (cont6 (b0 mod 8) b1) b2) b3)
            ++ utf16 r3
        end
      end
    end
  end.

Definition bytes_of (s : string) : list N :=
  map N_of_ascii (list_ascii_of_string s).

Definition unquote (c : N) : N := if (c =? 96)%N then 34%N else c.

Definition lit (s : string) : jsstring := map unquote (utf16 (bytes_of s)).

Arguments lit s%_string.

(** ** Relational comparison of strings

    [x < y] on two strings (IsLessThan): [false] when [y] is a prefix of
    [x], [true] when [x] is a proper prefix of [y], and otherwise the
    comparison of the code units at the first index where they differ. *)

Fixpoint str_lt (x y : jsstring) : bool :=
  match x, y with
  | _, [] => false
  | [], _ :: _ => true
  | a :: x', b :: y' => if (a =? b)%N then str_lt x' y' else (a <? b)%N
  end.

(** [x >= y] is [!(x < y)] and [x <= y] is [!(y < x)] on strings. *)
Definition str_ge (x y : jsstring) : bool := negb (str_lt x y).
Definition str_le (x y : jsstring) : bool := negb (str_lt y x).

(** Strict equality of two strings. *)
Fixpoint str_eq (x y : jsstring) : bool :=
  match x, y with
  | [], [] => true
  | a :: x', b :: y' => (a =? b)%N && str_eq x' y'
  | _, _ => false
  end.

(** ** Regular expressions

    The fragment used by the program: anchors, [\d], a literal
    character, a counted repetition [r{n}] and concatenation.  There is
    neither alternation nor an open quantifier in it, so a match at a
    given start index is unique and [exec] needs no backtracking.  The
    matcher carries the index of the next code unit ([^] only matches at
    index 0: the expression has no [m] flag) and the rest of the
    input. *)

Inductive RegExp : Type :=
| Bol
| Eol
| Digit
| Chr (c : N)
| Rep (r : RegExp) (n : nat)
| Cat (r1 r2 : RegExp).

(** [\d] is [[0-9]]. *)
Definition is_digit (c : N) : bool := (48 <=? c)%N && (c <=? 57)%N.

Fixpoint exec (r : RegExp) (pos : nat) (s : jsstring)
  : option (nat * jsstring) :=
  match r with
  | Bol => match pos with O => Some (pos, s) | S _ => None end
  | Eol => match s with [] => Some (pos, s) | _ :: _ => None end
  | Digit =>
    match s with
    | c :: s' => if is_digit c then Some (S pos, s') else None
    | [] => None
    end
  | Chr c =>
    match s with
    | c' :: s' => if (c' =? c)%N then Some (S pos, s') else None
    | [] => None
    end
  | Rep r' n =>
    (fix times (n : nat) (pos : nat) (s : jsstring) :=
       match n with
       | O => Some (pos, s)
       | S n' =>
         match exec r' pos s with
         | Some (pos', s') => times n' pos' s'
         | None => None
         end
       end) n pos s
  | Cat r1 r2 =>
    match exec r1 pos s with
    | Some (pos', s') => exec r2 pos' s'
    | None => None
    end
  end.

(** [RegExp.prototype.test]: try every start index from the left. *)
Fixpoint search (r : RegExp) (pos : nat) (s : jsstring) : bool :=
  match exec r pos s with
  | Some _ => true
  | None =>
    match s with
    | [] => false
    | _ :: s' => search r (S pos) s'
    end
  end.

Definition test (r : RegExp) (s : jsstring) : bool := search r 0 s.

(** [String.prototype.slice(0, n)]. *)
Definition slice0 (n : nat) (s : jsstring) : jsstring := firstn n s.

(** ** Dates

    A [Date] holds a time value: milliseconds since 1970-01-01T00:00Z.
    The day and year arithmetic is the one of the language definition;
    [/] and [mod] on [Z] are floor division and its remainder.  The
    clock is taken to return time values far from the ends of the
    representable range, so the shifted [Date] built by the program is
    always a valid one. *)

Local Open Scope Z_scope.

Definition msPerDay : Z := 86400000.
Definition msPerHour : Z := 3600000.
Definition msPerMinute : Z := 60000.
Definition msPerSecond : Z := 1000.

Definition Day (t : Z) : Z := t / msPerDay.

Definition DaysInYear (y : Z) : Z :=
  if negb (y mod 4 =? 0) then 365
  else if negb (y mod 100 =? 0) then 366
  else if negb (y mod 400 =? 0) then 365
  else 366.

Definition DayFromYear (y : Z) : Z :=
  365 * (y - 1970) + (y - 1969) / 4 - (y - 1901) / 100 + (y - 1601) / 400.

Definition TimeFromYear (y : Z) : Z := msPerDay * DayFromYear y.

(** [YearFromTime t] is the largest [y] with [TimeFromYear y <= t].  It
    is computed from the mean year length (365.2425 days) and adjusted
    by at most one year. *)
Definition YearFromTime (t : Z) : Z :=
  let y := (Day t * 10000) / 3652425 + 1970 in
  if Day t <? DayFromYear y then y - 1
  else if DayFromYear (y + 1) <=? Day t then y + 1
  else y.

Definition InLeapYear (t : Z) : Z :=
  if DaysInYear (YearFromTime t) =? 366 then 1 else 0.

Definition DayWithinYear (t : Z) : Z := Day t - DayFromYear (YearFromTime t).

Definition MonthFromTime (t : Z) : Z :=
  let d := DayWithinYear t in
  let l := InLeapYear t in
  if d <? 31 then 0
  else if d <? 59 + l then 1
  else if d <? 90 + l then 2
  else if d <? 120 + l then 3
  else if d <? 151 + l then 4
  else if d <? 181 + l then 5
  else if d <? 212 + l then 6
  else if d <? 243 + l then 7
  else if d <? 273 + l then 8
  else if d <? 304 + l then 9
  else if d <? 334 + l then 10
  else 11.

Definition DateFromTime (t : Z) : Z :=
  let d := DayWithinYear t in
  let l := InLeapYear t in
  match MonthFromTime t with
  | 0 => d + 1
  | 1 => d - 30
  | 2 => d - 58 - l
  | 3 => d - 89 - l
  | 4 => d - 119 - l
  | 5 => d - 150 - l
  | 6 => d - 180 - l
  | 7 => d - 211 - l
  | 8 => d - 242 - l
  | 9 => d - 272 - l
  | 10 => d - 303 - l
  | _ => d - 333 - l
  end.

Definition HourFromTime (t : Z) : Z := (t / msPerHour) mod 24.
Definition MinFromTime (t : Z) : Z := (t / msPerMinute) mod 60.
Definition SecFromTime (t : Z) : Z := (t / msPerSecond) mod 60.
Definition msFromTime (t : Z) : Z := t mod msPerSecond.

(** The decimal digits of [n], zero-padded on the left to [w] places. *)
Fixpoint pad (w : nat) (n : Z) : jsstring :=
  match w with
  | O => []
  | S w' => pad w' (n / 10) ++ [Z.to_N (48 + n mod 10)]
  end.

(** [Date.prototype.toISOString]: [YYYY-MM-DDTHH:mm:ss.sssZ], the year
    written with four digits from 0 to 9999 and as a sign and six digits
    outside. *)
Definition year_string (y : Z) : jsstring :=
  if (0 <=? y) && (y <=? 9999) then pad 4 y
  else (if y <? 0 then lit "-" else lit "+") ++ pad 6 (Z.abs y).

Definition toISOString (t : Z) : jsstring :=
  year_string (YearFromTime t) ++ lit "-" ++ pad 2 (MonthFromTime t + 1)
    ++ lit "-" ++ pad 2 (DateFromTime t)
    ++ lit "T" ++ pad 2 (HourFromTime t)
    ++ lit ":" ++ pad 2 (MinFromTime t)
    ++ lit ":" ++ pad 2 (SecFromTime t)
    ++ lit "." ++ pad 3 (msFromTime t) ++ lit "Z".

Local Close Scope Z_scope.

End JS.

Import JS.

(** [a ?? b]: [b] when [a] is [undefined] (or [null]). *)
Definition nullish {A : Type} (a : option A) (b : A) : A :=
  match a with
  | Some x => x
  | None => b
  end.

Notation "a ?? b" := (nullish a b) (at level 45, left associativity).

(** A string is truthy unless it is empty. *)
Definition truthy (s : jsstring) : bool :=
  match s with
  | [] => false
  | _ :: _ => true
  end.

(* ================================================================== *)
(** * D1: the table [trend_entries] and its prepared statements *)
(* ================================================================== *)

Module D1.

(** A row of [trend_entries], with the columns the program selects.
    [id] and [slot] are integer columns; the other three hold text. *)
Record Row : Type := {
  id : Z;
  date : jsstring;
  slot : Z;
  raw_response : jsstring;
  fetched_at : jsstring
}.

Record D1Database : Type := { trend_entries : list Row }.

Record D1PreparedStatement : Type := {
  database : D1Database;
  statement : jsstring;
  bound : list jsstring
}.

Definition prepare (db : D1Database) (query : jsstring)
  : D1PreparedStatement :=
  {| database := db; statement := query; bound := [] |}.

Definition bind (st : D1PreparedStatement) (value : jsstring)
  : D1PreparedStatement :=
  {| database := database st;
     statement := statement st;
     bound := bound st ++ [value] |}.

Record D1Result : Type := { results : option (list Row) }.

Inductive D1Error : Type := D1_ERROR.

Inductive Settled (A : Type) : Type :=
| Fulfilled (a : A)
| Rejected (e : D1Error).

Arguments Rejected {A} e.

(** [ORDER BY slot ASC]: an insertion sort on [slot] that is stable: a
    row goes before the first row whose slot is not smaller, so rows of
    equal slot keep the order they have in the table (the order in
    which the store returns them). *)
Fixpoint insert_by_slot (r : Row) (l : list Row) : list Row :=
  match l with
  | [] => [r]
  | x :: l' =>
    if (slot r <=? slot x)%Z then r :: l else x :: insert_by_slot r l'
  end.

Definition order_by_slot (l : list Row) : list Row :=
  fold_right insert_by_slot [] l.

(** [WHERE date = ?] *)
Definition where_date (d : jsstring) (l : list Row) : list Row :=
  filter (fun r => str_eq (date r) d) l.

(** The one statement the store is asked to run. *)
Definition SELECT_BY_DATE : jsstring :=
  lit "SELECT id, date, slot, raw_response, fetched_at FROM trend_entries WHERE date = ? ORDER BY slot ASC".

(** What [.all()] settles to.  Any other statement text, or a number of
    bound values other than the one [?], is an error of the store. *)
Definition execute (st : D1PreparedStatement) : Settled D1Result :=
  if str_eq (statement st) SELECT_BY_DATE then
    match bound st with
    | [d] =>
      Fulfilled
        {| results :=
             Some (order_by_slot
                     (where_date d (trend_entries (database st)))) |}
    | _ => Rejected D1_ERROR
    end
  else Rejected D1_ERROR.

(** ** Asynchronous computations

    An [async] function either returns, or awaits [.all()] on a prepared
    statement and continues with its result. *)
Inductive Async (A : Type) : Type :=
| Resolve (a : A)
| Await (st : D1PreparedStatement) (k : D1Result -> Async A).

Arguments Resolve {A} a.
Arguments Await {A} st k.

Definition all (st : D1PreparedStatement) : Async D1Result :=
  Await st (fun r => Resolve r).

Fixpoint and_then {A B : Type} (m : Async A) (f : A -> Async B) : Async B :=
  match m with
  | Resolve a => f a
  | Await st k => Await st (fun r => and_then (k r) f)
  end.

(** Running a computation: the value it settles to and the statements
    executed on the way, in order.  A rejected [.all()] is not caught by
    the program. *)
Fixpoint run {A : Type} (m : Async A)
  : Settled A * list D1PreparedStatement :=
  match m with
  | Resolve a => (Fulfilled a, [])
  | Await st k =>
    match execute st with
    | Fulfilled r => let (out, log) := run (k r) in (out, st :: log)
    | Rejected e => (Rejected e, [st])
    end
  end.

End D1.

Import D1.

Notation "x <- m ;; k" := (and_then m (fun x => k))
  (at level 61, m at next level, right associativity).

(* ================================================================== *)
(** * Hono: [html], [raw], the request and the response *)
(* ================================================================== *)

Module Hono.

(** ** [hono/html] *)

Record HtmlEscapedString : Type := raw { toString : jsstring }.

Definition escape_unit (c : N) : jsstring :=
  if (c =? 34)%N then lit "&quot;"
  else if (c =? 39)%N then lit "&#39;"
  else if (c =? 38)%N then lit "&amp;"
  else if (c =? 60)%N then lit "&lt;"
  else if (c =? 62)%N then lit "&gt;"
  else [c].

Definition escape (s : jsstring) : jsstring := flat_map escape_unit s.

(** A value interpolated in a template: a string is escaped, an
    already escaped string is taken as it is, an array is flattened. *)
Inductive Child : Type :=
| Str (s : jsstring)
| Escaped (h : HtmlEscapedString)
| Arr (l : list Child).

Fixpoint render (v : Child) : jsstring :=
  match v with
  | Str s => escape s
  | Escaped h => toString h
  | Arr l => flat_map render l
  end.

Fixpoint html_buffer (buffer : jsstring) (strings : list jsstring)
  (values : list Child) : jsstring :=
  match strings, values with
  | s :: strings', v :: values' =>
    html_buffer (buffer ++ s ++ render v) strings' values'
  | s :: _, [] => buffer ++ s
  | [], _ => buffer
  end.

Definition html (strings : list jsstring) (values : list Child)
  : HtmlEscapedString :=
  raw (html_buffer [] strings values).

(** ** Request and response *)

Record HonoRequest : Type := {
  queries : list (jsstring * jsstring);
  params : list (jsstring * jsstring)
}.

Fixpoint lookup (key : jsstring) (l : list (jsstring * jsstring))
  : option jsstring :=
  match l with
  | [] => None
  | (k, v) :: l' => if str_eq k key then Some v else lookup key l'
  end.

Definition query (r : HonoRequest) (key : jsstring) : option jsstring :=
  lookup key (queries r).

Definition param (r : HonoRequest) (key : jsstring) : option jsstring :=
  lookup key (params r).

Inductive Response : Type :=
| html_response (body : jsstring)
| json_response (members : list (jsstring * jsstring)).

Definition c_html (h : HtmlEscapedString) : Response :=
  html_response (toString h).

Definition c_json (members : list (jsstring * jsstring)) : Response :=
  json_response members.

End Hono.

Import Hono.

(** ** [marked] and the bindings of the worker *)

(** The markdown converter: text in, HTML text out. *)
Class Marked : Type := { parse : jsstring -> jsstring }.

Record Bindings : Type := {
  DB : D1Database;
  EARLIEST_DATE : option jsstring
}.

Record Context : Type := {
  env : Bindings;
  req : HonoRequest
}.

(* ================================================================== *)
(** * [functions/[[path]].ts]: the page, its routes and [/api/entry] *)
(* ================================================================== *)

Module Primary.

Section WithMarked.

Context {marked : Marked}.

Definition DEFAULT_EARLIEST_DATE : jsstring := lit "2025-12-25".

Definition formatJstDate (date : Z) : jsstring :=
  let jst := (date + 9 * 60 * 60 * 1000)%Z in
  slice0 10 (toISOString jst).

(** [/^\d{4}-\d{2}-\d{2}$/] *)
Definition DATE_RE : RegExp :=
  Cat Bol
   (Cat (Rep Digit 4)
     (Cat (Chr 45)
       (Cat (Rep Digit 2)
         (Cat (Chr 45)
           (Cat (Rep Digit 2) Eol))))).

Definition isValidDateString (value : jsstring) : bool := test DATE_RE value.

Definition resolveDate (input : option jsstring) (fallback : jsstring)
  : jsstring :=
  match input with
  | None => fallback
  | Some s =>
    if negb (truthy s) || negb (isValidDateString s) then fallback else s
  end.

Definition validateDateRange (date minDate maxDate : jsstring) : bool :=
  str_ge date minDate && str_le date maxDate.

Definition fetchEntriesForDate (db : D1Database) (date : jsstring)
  : Async (list Row) :=
  r <- all (bind (prepare db
        (lit "SELECT id, date, slot, raw_response, fetched_at FROM trend_entries WHERE date = ? ORDER BY slot ASC"))
        date) ;;
  Resolve (results r ?? []).

Definition slotLabel (entry : Row) : jsstring :=
  if (slot entry =? 0)%Z then lit "00:00 取得" else lit "12:00 取得".

Definition renderEntryHtml (entry : Row) : HtmlEscapedString :=
  let content := parse (raw_response entry) in
  html [lit "
    <article class=`mb-4`>
      <div class=`d-flex flex-wrap justify-content-between align-items-center mb-2`>
        <h2 class=`h5 mb-0`>";
        lit "</h2>
        <span class=`text-muted small`>取得時刻 (UTC): ";
        lit "</span>
      </div>
      <div class=`markdown-body`>";
        lit "</div>
    </article>
  "]
       [Str (slotLabel entry); Str (fetched_at entry); Escaped (raw content)].

Definition renderEntries (entries : list Row) : HtmlEscapedString :=
  if (List.length entries =? 0)%nat then
    html [lit "<p class=`text-muted`>この日付のデータは見つかりませんでした。</p>"] []
  else
    html [[]; []]
         [Arr (map (fun entry => Escaped (renderEntryHtml entry)) entries)].

Definition renderPage (date : jsstring) (entries : list Row)
  (minDate maxDate : jsstring) : HtmlEscapedString :=
  html [lit "
  <!doctype html>
  <html lang=`ja`>
    <head>
      <meta charset=`utf-8` />
      <meta name=`viewport` content=`width=device-width, initial-scale=1` />
      <title>Tech Trend Blog</title>
      <link
        href=`https://cdn.jsdelivr.net/npm/bootstrap@5.3.3/dist/css/bootstrap.min.css`
        rel=`stylesheet`
        crossorigin=`anonymous`
      />
      <style>
        body {
          background: #f8f9fa;
        }
        .blog-card {
          background: #ffffff;
          border-radius: 1rem;
          box-shadow: 0 12px 32px rgba(15, 23, 42, 0.08);
        }
        .markdown-body h1,
        .markdown-body h2,
        .markdown-body h3 {
          margin-top: 1.5rem;
        }
        .markdown-body pre {
          background: #0f172a;
          color: #e2e8f0;
          padding: 1rem;
          border-radius: 0.75rem;
        }
        .markdown-body code {
          background: #e2e8f0;
          padding: 0.1rem 0.3rem;
          border-radius: 0.25rem;
        }
      </style>
    </head>
    <body class=`py-4`>
      <div class=`container`>
        <header class=`mb-4 text-center`>
          <h1 class=`display-6 fw-bold`>Tech Trend Blog</h1>
          <p class=`text-muted`>
            xAI から取得した情報をまとめています。内容に誤りがある可能性があります。
          </p>
        </header>

        <section class=`blog-card p-4 mb-4`>
          <div class=`row g-3 align-items-end`>
            <div class=`col-md-6`>
              <label class=`form-label fw-semibold`>日付を選択</label>
              <input
                class=`form-control`
                type=`date`
                name=`date`
                value=`";
        lit "`
                min=`";
        lit "`
                max=`";
        lit "`
                x-data
                @change=`$dispatch('date-change', { value: $event.target.value })`
              />
            </div>
            <div class=`col-md-6 text-md-end`>
              <button
                class=`btn btn-primary`
                hx-get=`/api/entry`
                hx-include=`[name='date']`
                hx-target=`#entry-content`
                hx-swap=`innerHTML`
              >
                記事を表示
              </button>
            </div>
          </div>
          <p class=`small text-muted mt-3 mb-0`>
            ";
        lit " から ";
        lit " まで遡れます。
          </p>
        </section>

        <section class=`blog-card p-4` id=`entry-content`>
          ";
        lit "
        </section>

        <footer class=`text-center mt-4 text-muted small`>
          Tech Trend Blog · Cloudflare Pages
        </footer>
      </div>
      <script src=`https://cdn.jsdelivr.net/npm/htmx.org@1.9.12`></script>
      <script src=`https://cdn.jsdelivr.net/npm/alpinejs@3.x.x/dist/cdn.min.js` defer></script>
      <script>
        document.addEventListener(`date-change`, (event) => {
          const dateInput = document.querySelector(`input[name='date']`);
          if (!dateInput) return;
          dateInput.value = event.detail.value;
        });
      </script>
    </body>
  </html>
"]
       [Str date; Str minDate; Str maxDate; Str minDate; Str maxDate;
        Escaped (renderEntries entries)].

Definition renderEntriesPartial (entries : list Row) : HtmlEscapedString :=
  html [[]; []] [Escaped (renderEntries entries)].

(** The handlers take the context and the time value of [new Date()]. *)

(** [app.get("/")] *)
Definition get_index (c : Context) (now : Z) : Async Response :=
  let minDate := EARLIEST_DATE (env c) ?? DEFAULT_EARLIEST_DATE in
  let maxDate := formatJstDate now in
  let date := resolveDate (query (req c) (lit "date")) maxDate in
  entries <- (if validateDateRange date minDate maxDate
              then fetchEntriesForDate (DB (env c)) date
              else Resolve []) ;;
  Resolve (c_html (renderPage date entries minDate maxDate)).

(** [app.get("/date/:date")] *)
Definition get_date (c : Context) (now : Z) : Async Response :=
  let minDate := EARLIEST_DATE (env c) ?? DEFAULT_EARLIEST_DATE in
  let maxDate := formatJstDate now in
  let date := resolveDate (param (req c) (lit "date")) maxDate in
  entries <- (if validateDateRange date minDate maxDate
              then fetchEntriesForDate (DB (env c)) date
              else Resolve []) ;;
  Resolve (c_html (renderPage date entries minDate maxDate)).

(** [app.get("/api/entry")] *)
Definition get_api_entry (c : Context) (now : Z) : Async Response :=
  let minDate := EARLIEST_DATE (env c) ?? DEFAULT_EARLIEST_DATE in
  let maxDate := formatJstDate now in
  let date := resolveDate (query (req c) (lit "date")) maxDate in
  if negb (validateDateRange date minDate maxDate) then
    Resolve (c_html (html [lit "<p class=`text-danger`>選択できる日付の範囲外です。</p>"] []))
  else
    entries <- fetchEntriesForDate (DB (env c)) date ;;
    Resolve (c_html (renderEntriesPartial entries)).

End WithMarked.

End Primary.

(* ================================================================== *)
(** * The legacy route file: [/api/meta] and [/api/entry] *)
(* ================================================================== *)

Module Legacy.

Section WithMarked.

Context {marked : Marked}.

Definition DEFAULT_EARLIEST_DATE : jsstring := lit "2025-12-25".

Definition formatJstDate (date : Z) : jsstring :=
  let jst := (date + 9 * 60 * 60 * 1000)%Z in
  slice0 10 (toISOString jst).

(** [/^\d{4}-\d{2}-\d{2}$/] *)
Definition DATE_RE : RegExp :=
  Cat Bol
   (Cat (Rep Digit 4)
     (Cat (Chr 45)
       (Cat (Rep Digit 2)
         (Cat (Chr 45)
           (Cat (Rep Digit 2) Eol))))).

Definition isValidDateString (value : jsstring) : bool := test DATE_RE value.

Definition resolveDate (input : option jsstring) (fallback : jsstring)
  : jsstring :=
  match input with
  | None => fallback
  | Some s =>
    if negb (truthy s) || negb (isValidDateString s) then fallback else s
  end.

Definition validateDateRange (date minDate maxDate : jsstring) : bool :=
  str_ge date minDate && str_le date maxDate.

Definition fetchEntriesForDate (db : D1Database) (date : jsstring)
  : Async (list Row) :=
  r <- all (bind (prepare db
        (lit "SELECT id, date, slot, raw_response, fetched_at FROM trend_entries WHERE date = ? ORDER BY slot ASC"))
        date) ;;
  Resolve (results r ?? []).

Definition slotLabel (entry : Row) : jsstring :=
  if (slot entry =? 0)%Z then lit "00:00 取得" else lit "12:00 取得".

Definition renderEntryHtml (entry : Row) : HtmlEscapedString :=
  let content := parse (raw_response entry) in
  html [lit "
    <article class=`mb-4`>
      <div class=`d-flex flex-wrap justify-content-between align-items-center mb-2`>
        <h2 class=`h5 mb-0`>";
        lit "</h2>
        <span class=`text-muted small`>取得時刻 (UTC): ";
        lit "</span>
      </div>
      <div class=`markdown-body`>";
        lit "</div>
    </article>
  "]
       [Str (slotLabel entry); Str (fetched_at entry); Escaped (raw content)].

Definition renderEntries (entries : list Row) : HtmlEscapedString :=
  if (List.length entries =? 0)%nat then
    html [lit "<p class=`text-muted`>この日付のデータは見つかりませんでした。</p>"] []
  else
    html [[]; []]
         [Arr (map (fun entry => Escaped (renderEntryHtml entry)) entries)].

(** [app.get("/api/meta")] *)
Definition get_api_meta (c : Context) (now : Z) : Response :=
  let minDate := EARLIEST_DATE (env c) ?? DEFAULT_EARLIEST_DATE in
  let maxDate := formatJstDate now in
  let defaultDate := resolveDate (query (req c) (lit "date")) maxDate in
  c_json [(lit "minDate", minDate);
          (lit "maxDate", maxDate);
          (lit "defaultDate", defaultDate)].

(** [app.get("/api/entry")] *)
Definition get_api_entry (c : Context) (now : Z) : Async Response :=
  let minDate := EARLIEST_DATE (env c) ?? DEFAULT_EARLIEST_DATE in
  let maxDate := formatJstDate now in
  let date := resolveDate (query (req c) (lit "date")) maxDate in
  if negb (validateDateRange date minDate maxDate) then
    Resolve (c_html (html [lit "<p class=`text-danger`>選択できる日付の範囲外です。</p>"] []))
  else
    entries <- fetchEntriesForDate (DB (env c)) date ;;
    Resolve (c_html (renderEntries entries)).

End WithMarked.

End Legacy.


(* ================================================================== *)
(** * What the specification says, in its own words *)
(* ================================================================== *)

Module Spec.

(** A decimal digit. *)
Definition IsDigit (c : N) : Prop := (48 <= c <= 57)%N.

(** [YYYY-MM-DD]: four digits, a hyphen, two digits, a hyphen, two
    digits, and nothing else. *)
Definition MatchesDatePattern (s : jsstring) : Prop :=
  exists y m d : jsstring,
    List.length y = 4 /\ List.length m = 2 /\ List.length d = 2 /\
    Forall IsDigit y /\ Forall IsDigit m /\ Forall IsDigit d /\
    s = y ++ [45%N] ++ m ++ [45%N] ++ d.

(** Lexicographic order on strings: a proper prefix comes first, and
    otherwise the first differing code unit decides. *)
Inductive lex_le : jsstring -> jsstring -> Prop :=
| lex_le_nil : forall y, lex_le [] y
| lex_le_lt : forall a b x y, (a < b)%N -> lex_le (a :: x) (b :: y)
| lex_le_eq : forall a x y, lex_le x y -> lex_le (a :: x) (a :: y).

(** The statement of [fetchEntriesForDate], once prepared and bound. *)
Definition select_by_date (db : D1Database) (d : jsstring)
  : D1PreparedStatement :=
  {| database := db; statement := SELECT_BY_DATE; bound := [d] |}.

(** Rows in ascending order of [slot]. *)
Definition slot_le (a b : Row) : Prop := (slot a <= slot b)%Z.
Definition slot_lt (a b : Row) : Prop := (slot a < slot b)%Z.

(** The two collection labels. *)
Definition LABEL_0000 : jsstring := lit "00:00 取得".
Definition LABEL_1200 : jsstring := lit "12:00 取得".

(** The block shown for one entry: the label in the heading, the time
    of collection after it, then the converted markdown. *)
Definition entry_fragment (label fetched content : jsstring) : jsstring :=
  lit "
    <article class=`mb-4`>
      <div class=`d-flex flex-wrap justify-content-between align-items-center mb-2`>
        <h2 class=`h5 mb-0`>"
  ++ label ++
  lit "</h2>
        <span class=`text-muted small`>取得時刻 (UTC): "
  ++ fetched ++
  lit "</span>
      </div>
      <div class=`markdown-body`>"
  ++ content ++
  lit "</div>
    </article>
  ".

(** The fixed fragments. *)
Definition NO_DATA_PLACEHOLDER : jsstring :=
  lit "<p class=`text-muted`>この日付のデータは見つかりませんでした。</p>".

Definition OUT_OF_RANGE_WARNING : jsstring :=
  lit "<p class=`text-danger`>選択できる日付の範囲外です。</p>".

(** A full page: an HTML document with the entry list in its content
    region. *)
Definition full_page (entry_list body : jsstring) : Prop :=
  exists head tail : jsstring,
    body =
      lit "
  <!doctype html>" ++ head
      ++ lit "<section class=`blog-card p-4` id=`entry-content`>"
      ++ lit "
          " ++ entry_list ++ lit "
        </section>"
      ++ tail ++ lit "</html>
".

(** Programs that await the same statements and resolve to the same
    values. *)
Inductive same_program {A : Type} : Async A -> Async A -> Prop :=
| same_Resolve : forall a, same_program (Resolve a) (Resolve a)
| same_Await : forall st k1 k2,
    (forall r, same_program (k1 r) (k2 r)) ->
    same_program (Await st k1) (Await st k2).

(** ** The civil calendar

    Day 0 is 1970-01-01 and every following day is the [next_day] of
    the one before. *)
Record CivilDate : Type := { year : Z; month : Z; day : Z }.

Definition is_leap (y : Z) : bool :=
  ((y mod 4 =? 0) && negb (y mod 100 =? 0) || (y mod 400 =? 0))%Z.

Definition days_in_month (y m : Z) : Z :=
  if (m =? 2)%Z then (if is_leap y then 29 else 28)%Z
  else if ((m =? 4) || (m =? 6) || (m =? 9) || (m =? 11))%Z then 30%Z
  else 31%Z.

Definition next_day (c : CivilDate) : CivilDate :=
  if (day c <? days_in_month (year c) (month c))%Z then
    {| year := year c; month := month c; day := day c + 1 |}
  else if (month c <? 12)%Z then
    {| year := year c; month := month c + 1; day := 1 |}
  else
    {| year := year c + 1; month := 1; day := 1 |}.

Definition civil_of_day (n : nat) : CivilDate :=
  Nat.iter n next_day {| year := 1970; month := 1; day := 1 |}.

(** Today in the zone UTC+9, for an instant [now] in milliseconds since
    the epoch. *)
Definition jst_today (now : Z) : CivilDate :=
  civil_of_day (Z.to_nat ((now + 9 * 60 * 60 * 1000) / 86400000)).

(** The number of the day of a civil date, counted from 1970-01-01: the
    days before its year, before its month, and its day of the month. *)
Definition days_before_month (y m : Z) : Z :=
  let l := if is_leap y then 1%Z else 0%Z in
  match m with
  | 1 => 0
  | 2 => 31
  | 3 => 59 + l
  | 4 => 90 + l
  | 5 => 120 + l
  | 6 => 151 + l
  | 7 => 181 + l
  | 8 => 212 + l
  | 9 => 243 + l
  | 10 => 273 + l
  | 11 => 304 + l
  | _ => 334 + l
  end%Z.

Definition valid_date (c : CivilDate) : Prop :=
  (1 <= month c <= 12 /\ 1 <= day c <= days_in_month (year c) (month c))%Z.

Definition day_number (c : CivilDate) : Z :=
  (DayFromYear (year c) + days_before_month (year c) (month c)
   + day c - 1)%Z.

(** [YYYY-MM-DD] *)
Definition format_date (c : CivilDate) : jsstring :=
  pad 4 (year c) ++ lit "-" ++ pad 2 (month c) ++ lit "-" ++ pad 2 (day c).

(** A converter for the examples: one paragraph around the text. *)
Definition paragraph_marked : Marked :=
  {| parse := fun s => lit "<p>" ++ s ++ lit "</p>" |}.

(** The day of an instant in the zone UTC+9, counted from 1970-01-01. *)
Definition jst_day (now : Z) : Z :=
  ((now + 9 * 60 * 60 * 1000) / 86400000)%Z.

(** The instants from 1970-01-01 to the end of the year 9999 at UTC+9:
    the years that [toISOString] writes with four digits. *)
Definition four_digit_era (now : Z) : Prop :=
  (0 <= now + 32400000 < 253402300800000)%Z.

(** A requested date that [resolveDate] does not keep: absent, or not
    of the shape [YYYY-MM-DD]. *)
Definition unusable (requested : option jsstring) : Prop :=
  forall s, requested = Some s -> ~ MatchesDatePattern s.

(** The same bindings with a request that has no parameter. *)
Definition without_parameters (c : Context) : Context :=
  {| env := env c; req := {| queries := []; params := [] |} |}.





(** An HTML attribute with its value between double quotes. *)
Definition attribute (name value : jsstring) : jsstring :=
  name ++ lit "=`" ++ value ++ lit "`".

(** The statements that a value of the handlers' log may hold: none, or
    the one select bound to [d]. *)
Definition at_most_select (db : D1Database) (d : jsstring)
  (log : list D1PreparedStatement) : Prop :=
  log = [] \/ log = [select_by_date db d].

End Spec.

Import Spec.

(* ================================================================== *)
(** * Sample data *)
(* ================================================================== *)

Module Sample.

(** 2026-06-01T00:00:00Z, which is 09:00 of the same day at UTC+9. *)
Definition now : Z := 1780272000000.

Definition morning : Row :=
  {| id := 1; date := lit "2026-05-31"; slot := 0;
     raw_response := lit "# Morning";
     fetched_at := lit "2026-05-30T15:00:05Z" |}.

Definition noon : Row :=
  {| id := 2; date := lit "2026-05-31"; slot := 1;
     raw_response := lit "# Noon";
     fetched_at := lit "2026-05-31T03:00:07Z" |}.

Definition earlier : Row :=
  {| id := 3; date := lit "2026-05-30"; slot := 0;
     raw_response := lit "a < b";
     fetched_at := lit "2026-05-29T15:00:02Z" |}.

Definition evening : Row :=
  {| id := 4; date := lit "2026-05-29"; slot := 2;
     raw_response := lit "late";
     fetched_at := lit "2026-05-29T09:00:00Z" |}.

(** The noon entry was stored before the morning one. *)
Definition db : D1Database :=
  {| trend_entries := [noon; earlier; morning; evening] |}.

(** A request with [date] as query parameter and as path parameter. *)
Definition request (d : jsstring) : Context :=
  {| env := {| DB := db; EARLIEST_DATE := None |};
     req := {| queries := [(lit "date", d)]; params := [(lit "date", d)] |} |}.


(** Two entries of one slot for one date, stored in the order of their
    ids. *)
Definition twice : D1Database :=
  {| trend_entries :=
       [{| id := 1; date := lit "2026-05-31"; slot := 0;
           raw_response := lit "first";
           fetched_at := lit "2026-05-30T15:00:05Z" |};
        {| id := 2; date := lit "2026-05-31"; slot := 0;
           raw_response := lit "second";
           fetched_at := lit "2026-05-30T15:00:09Z" |}] |}.

(** A request without any parameter. *)
Definition bare_request : Context :=
  {| env := {| DB := db; EARLIEST_DATE := None |};
     req := {| queries := []; params := [] |} |}.

End Sample.

(* ================================================================== *)
(** * Strings and regular expressions *)
(* ================================================================== *)

Lemma is_digit_iff (c : N) : is_digit c = true <-> IsDigit c.
Proof.
  unfold is_digit, IsDigit.
  rewrite andb_true_iff, !N.leb_le. tauto.
Qed.

Lemma str_eq_iff (x y : jsstring) : str_eq x y = true <-> x = y.
Proof.
  revert y. induction x as [|a x IH]; intros [|b y]; simpl;
    try (split; [discriminate | congruence]); [tauto|].
  rewrite andb_true_iff, N.eqb_eq, IH. split.
  - intros [-> ->]. reflexivity.
  - intros [= -> ->]. auto.
Qed.

Lemma str_eq_refl (x : jsstring) : str_eq x x = true.
Proof. now apply str_eq_iff. Qed.

(** [x <= y] in JavaScript is the lexicographic order. *)
Lemma str_lt_false_iff (x y : jsstring) : str_lt y x = false <-> lex_le x y.
Proof.
  revert y. induction x as [|a x IH]; intros y.
  - destruct y; simpl; split; auto using lex_le_nil.
  - destruct y as [|b y]; simpl.
    + split; [discriminate | inversion 1].
    + destruct (N.eqb_spec b a) as [->|Hne].
      * rewrite IH. split; [apply lex_le_eq|].
        inversion 1; subst; [lia | assumption].
      * rewrite N.ltb_ge. split.
        -- intros Hle. apply lex_le_lt. lia.
        -- inversion 1; subst; [lia | congruence].
Qed.

Lemma str_le_iff (x y : jsstring) : str_le x y = true <-> lex_le x y.
Proof.
  unfold str_le. rewrite negb_true_iff. apply str_lt_false_iff.
Qed.

Lemma str_ge_iff (x y : jsstring) : str_ge x y = true <-> lex_le y x.
Proof.
  unfold str_ge. rewrite negb_true_iff. apply str_lt_false_iff.
Qed.

(** A counted run of digits. *)
Lemma exec_Rep_Digit (n : nat) :
  forall pos s pos' s',
    exec (Rep Digit n) pos s = Some (pos', s') <->
    exists ds, List.length ds = n /\ Forall IsDigit ds /\
               s = ds ++ s' /\ pos' = n + pos.
Proof.
  induction n as [|n IH]; intros pos s pos' s'.
  - simpl. split.
    + intros [= <- <-]. exists []. auto.
    + intros (ds & Hlen & _ & -> & ->).
      destruct ds; [reflexivity | discriminate].
  - change (exec (Rep Digit (S n)) pos s)
      with (match exec Digit pos s with
            | Some (p, r) => exec (Rep Digit n) p r
            | None => None
            end).
    simpl (exec Digit pos s). split.
    + destruct s as [|c s]; [discriminate|].
      destruct (is_digit c) eqn:Hc; [|discriminate].
      intros H. apply IH in H. destruct H as (ds & Hlen & Hds & -> & ->).
      exists (c :: ds). simpl. split; [congruence|]. split; [|split].
      * constructor; [now apply is_digit_iff | assumption].
      * reflexivity.
      * lia.
    + intros (ds & Hlen & Hds & -> & ->).
      destruct ds as [|c ds]; [discriminate|].
      inversion Hds as [|? ? Hc Hds']; subst.
      apply is_digit_iff in Hc. simpl. rewrite Hc.
      apply IH. exists ds. simpl in Hlen.
      split; [lia|]. split; [assumption|]. split; [reflexivity | lia].
Qed.

Lemma exec_Chr (c : N) (pos : nat) (s : jsstring) pos' s' :
  exec (Chr c) pos s = Some (pos', s') <-> s = c :: s' /\ pos' = S pos.
Proof.
  simpl. destruct s as [|c' s]; [split; [discriminate | intros [[=] _]]|].
  destruct (N.eqb_spec c' c) as [->|Hne]; split.
  - intros [= <- <-]. auto.
  - intros [[= ->] ->]. reflexivity.
  - discriminate.
  - intros [[= -> ->] _]. congruence.
Qed.

Lemma exec_Cat (r1 r2 : RegExp) (pos : nat) (s : jsstring) pos' s' :
  exec (Cat r1 r2) pos s = Some (pos', s') <->
  exists p r, exec r1 pos s = Some (p, r) /\ exec r2 p r = Some (pos', s').
Proof.
  simpl. destruct (exec r1 pos s) as [[p r]|]; split.
  - intros H. exists p, r. auto.
  - intros (p' & r' & [= <- <-] & H). exact H.
  - discriminate.
  - intros (p' & r' & [=] & _).
Qed.

Lemma exec_Eol (pos : nat) (s : jsstring) pos' s' :
  exec Eol pos s = Some (pos', s') <-> s = [] /\ s' = [] /\ pos' = pos.
Proof.
  simpl. destruct s; split.
  - intros [= <- <-]. auto.
  - intros (_ & -> & ->). reflexivity.
  - discriminate.
  - intros ([=] & _).
Qed.

(** An expression that starts with [^] matches at index 0 or not at
    all. *)
Lemma search_Bol (r : RegExp) (s : jsstring) :
  forall pos, search (Cat Bol r) (S pos) s = false.
Proof.
  induction s as [|c s IH]; intros pos; simpl; [reflexivity | apply IH].
Qed.

Lemma test_Bol (r : RegExp) (s : jsstring) :
  test (Cat Bol r) s = true <-> exists pos' s', exec r 0 s = Some (pos', s').
Proof.
  unfold test.
  assert (Hs : search (Cat Bol r) 0 s =
               match exec r 0 s with Some _ => true | None => false end).
  { destruct s as [|c s]; simpl.
    - destruct (exec r 0 []); reflexivity.
    - destruct (exec r 0 (c :: s)); [reflexivity | apply search_Bol]. }
  rewrite Hs. destruct (exec r 0 s) as [[p r']|]; split.
  - intros _. exists p, r'. reflexivity.
  - reflexivity.
  - discriminate.
  - intros (p & r' & [=]).
Qed.

(** The date expression accepts exactly the strings of the shape
    [YYYY-MM-DD]. *)
Lemma date_regexp_matches (s : jsstring) :
  test (Cat Bol
         (Cat (Rep Digit 4)
           (Cat (Chr 45)
             (Cat (Rep Digit 2)
               (Cat (Chr 45)
                 (Cat (Rep Digit 2) Eol)))))) s = true
  <-> MatchesDatePattern s.
Proof.
  rewrite test_Bol. split.
  - intros (p & r & H).
    apply exec_Cat in H as (p1 & r1 & H1 & H).
    apply exec_Rep_Digit in H1 as (y & Hy & Dy & -> & ->).
    apply exec_Cat in H as (p2 & r2 & H2 & H).
    apply exec_Chr in H2 as (-> & ->).
    apply exec_Cat in H as (p3 & r3 & H3 & H).
    apply exec_Rep_Digit in H3 as (m & Hm & Dm & -> & ->).
    apply exec_Cat in H as (p4 & r4 & H4 & H).
    apply exec_Chr in H4 as (-> & ->).
    apply exec_Cat in H as (p5 & r5 & H5 & H).
    apply exec_Rep_Digit in H5 as (d & Hd & Dd & -> & ->).
    apply exec_Eol in H as (-> & -> & ->).
    exists y, m, d. rewrite app_nil_r. auto 10.
  - intros (y & m & d & Hy & Hm & Hd & Dy & Dm & Dd & ->).
    exists 10, [].
    apply exec_Cat. exists (4 + 0), ([45%N] ++ m ++ [45%N] ++ d). split.
    { apply exec_Rep_Digit. exists y. auto. }
    apply exec_Cat. exists (S (4 + 0)), (m ++ [45%N] ++ d). split.
    { apply exec_Chr. auto. }
    apply exec_Cat. exists (2 + S (4 + 0)), ([45%N] ++ d). split.
    { apply exec_Rep_Digit. exists m. auto. }
    apply exec_Cat. exists (S (2 + S (4 + 0))), d. split.
    { apply exec_Chr. auto. }
    apply exec_Cat. exists (2 + S (2 + S (4 + 0))), []. split.
    { apply exec_Rep_Digit. exists d. rewrite app_nil_r. auto. }
    apply exec_Eol. auto.
Qed.

Lemma MatchesDatePattern_not_empty : ~ MatchesDatePattern [].
Proof.
  intros (y & m & d & Hy & _ & _ & _ & _ & _ & H).
  destruct y; discriminate.
Qed.

Lemma MatchesDatePattern_length (s : jsstring) :
  MatchesDatePattern s -> List.length s = 10.
Proof.
  intros (y & m & d & Hy & Hm & Hd & _ & _ & _ & ->).
  rewrite !length_app. simpl. lia.
Qed.

(** [resolveDate] keeps a string of the date shape and replaces every
    other input by the fallback. *)
Lemma resolveDate_spec (valid : jsstring -> bool) (s f : jsstring) :
  (forall x, valid x = true <-> MatchesDatePattern x) ->
  (MatchesDatePattern s ->
   (if negb (truthy s) || negb (valid s) then f else s) = s) /\
  (~ MatchesDatePattern s ->
   (if negb (truthy s) || negb (valid s) then f else s) = f).
Proof.
  intros Hv. split; intros Hs.
  - assert (Ht : truthy s = true).
    { destruct s; [now apply MatchesDatePattern_not_empty in Hs | reflexivity]. }
    apply Hv in Hs. rewrite Ht, Hs. reflexivity.
  - destruct (valid s) eqn:E.
    + apply Hv in E. contradiction.
    + rewrite orb_true_r. reflexivity.
Qed.

(* ================================================================== *)
(** * The store *)
(* ================================================================== *)

Section OrderBySlot.

Lemma insert_by_slot_perm (r : Row) (l : list Row) :
  Permutation (insert_by_slot r l) (r :: l).
Proof.
  induction l as [|x l IH]; simpl; [reflexivity|].
  destruct (slot r <=? slot x)%Z; [reflexivity|].
  rewrite IH. apply perm_swap.
Qed.

Lemma order_by_slot_perm (l : list Row) : Permutation (order_by_slot l) l.
Proof.
  induction l as [|x l IH]; simpl; [reflexivity|].
  rewrite insert_by_slot_perm. now constructor.
Qed.

Lemma insert_by_slot_sorted (r : Row) (l : list Row) :
  StronglySorted slot_le l -> StronglySorted slot_le (insert_by_slot r l).
Proof.
  induction 1 as [|x l Hl IH Hx]; simpl.
  - repeat constructor.
  - destruct (Z.leb_spec (slot r) (slot x)) as [Hle|Hgt].
    + constructor; [now constructor|].
      constructor; [exact Hle|].
      eapply Forall_impl; [|exact Hx].
      unfold slot_le. intros; lia.
    + constructor; [assumption|].
      eapply Permutation_Forall; [symmetry; apply insert_by_slot_perm|].
      constructor; [unfold slot_le; lia | exact Hx].
Qed.

Lemma order_by_slot_sorted (l : list Row) :
  StronglySorted slot_le (order_by_slot l).
Proof.
  induction l as [|x l IH]; simpl; [constructor|].
  now apply insert_by_slot_sorted.
Qed.

(** The sort is stable: among the rows of one slot, the order of the
    table is kept. *)
Lemma insert_by_slot_stable (k : Z) (r : Row) (l : list Row) :
  filter (fun x => (slot x =? k)%Z) (insert_by_slot r l)
  = filter (fun x => (slot x =? k)%Z) (r :: l).
Proof.
  induction l as [|x l IH]; [reflexivity|].
  cbn [insert_by_slot].
  destruct (Z.leb_spec (slot r) (slot x)) as [Hle|Hgt]; [reflexivity|].
  cbn [filter] in *. rewrite IH.
  destruct (Z.eqb_spec (slot r) k) as [Er|Nr]; [|reflexivity].
  destruct (Z.eqb_spec (slot x) k) as [Ex|Nx]; [lia | reflexivity].
Qed.

Lemma order_by_slot_stable (k : Z) (l : list Row) :
  filter (fun x => (slot x =? k)%Z) (order_by_slot l)
  = filter (fun x => (slot x =? k)%Z) l.
Proof.
  induction l as [|r l IH]; [reflexivity|].
  cbn [order_by_slot fold_right]. fold (order_by_slot l).
  rewrite insert_by_slot_stable. cbn [filter]. now rewrite IH.
Qed.

(** A table that is already in ascending order is returned as it is. *)
Lemma order_by_slot_sorted_id (l : list Row) :
  StronglySorted slot_le l -> order_by_slot l = l.
Proof.
  induction 1 as [|r l Hl IH Hr]; [reflexivity|].
  cbn [order_by_slot fold_right]. fold (order_by_slot l). rewrite IH.
  destruct l as [|x l]; [reflexivity|].
  cbn [insert_by_slot]. inversion Hr as [|? ? Hx _]; subst.
  unfold slot_le in Hx.
  destruct (Z.leb_spec (slot r) (slot x)); [reflexivity | lia].
Qed.

(** With pairwise different slots there is one ascending arrangement. *)
Lemma sorted_perm_unique (l1 : list Row) :
  forall l2,
    StronglySorted slot_le l1 -> StronglySorted slot_lt l2 ->
    Permutation l1 l2 -> l1 = l2.
Proof.
  induction l1 as [|a l1 IH]; intros l2 H1 H2 HP.
  - now apply Permutation_nil in HP.
  - destruct l2 as [|b l2].
    { symmetry in HP. now apply Permutation_nil in HP. }
    inversion H1 as [|? ? H1' Ha]; subst.
    inversion H2 as [|? ? H2' Hb]; subst.
    assert (Hab : a = b).
    { assert (Ia : In a (b :: l2))
        by (eapply Permutation_in; [exact HP | now left]).
      assert (Ib : In b (a :: l1))
        by (eapply Permutation_in; [symmetry; exact HP | now left]).
      destruct Ia as [E|Ia]; [now symmetry|].
      rewrite Forall_forall in Ha, Hb.
      apply Hb in Ia. unfold slot_lt in Ia.
      destruct Ib as [E|Ib]; [subst; lia|].
      apply Ha in Ib. unfold slot_le in Ib. lia. }
    subst b. f_equal. apply IH; auto.
    eapply Permutation_cons_inv; exact HP.
Qed.

Lemma where_date_In (d : jsstring) (t : list Row) (r : Row) :
  In r (where_date d t) <-> In r t /\ date r = d.
Proof.
  unfold where_date. rewrite filter_In, str_eq_iff. tauto.
Qed.

Lemma where_date_perm (d : jsstring) (t t' : list Row) :
  Permutation t t' -> Permutation (where_date d t) (where_date d t').
Proof.
  unfold where_date. induction 1; simpl.
  - constructor.
  - destruct (str_eq (date x) d); [now constructor | assumption].
  - destruct (str_eq (date x) d), (str_eq (date y) d);
      try reflexivity; apply perm_swap.
  - etransitivity; eassumption.
Qed.

End OrderBySlot.

Lemma execute_select (db : D1Database) (d : jsstring) :
  execute (select_by_date db d) =
  Fulfilled
    {| results := Some (order_by_slot (where_date d (trend_entries db))) |}.
Proof. reflexivity. Qed.

(* ================================================================== *)
(** * Templates *)
(* ================================================================== *)

Lemma render_escaped_list {A : Type} (f : A -> HtmlEscapedString)
  (l : list A) :
  flat_map render (map (fun x => Escaped (f x)) l)
  = List.concat (map (fun x => toString (f x)) l).
Proof.
  induction l as [|x l IH]; simpl; [reflexivity | now rewrite IH].
Qed.

Lemma raw_toString (h : HtmlEscapedString) : raw (toString h) = h.
Proof. now destruct h. Qed.

(** A template with one interpolated value that is already escaped and
    no text around it is that value. *)
Lemma html_identity (h : HtmlEscapedString) :
  html [[]; []] [Escaped h] = h.
Proof.
  unfold html. simpl. rewrite app_nil_r. apply raw_toString.
Qed.

(* ================================================================== *)
(** * Dates *)
(* ================================================================== *)

Section Calendar.

Local Open Scope Z_scope.

Lemma div4_succ (y : Z) :
  (y + 1 - 1969) / 4 = (y - 1969) / 4 + (if y mod 4 =? 0 then 1 else 0).
Proof. destruct (Z.eqb_spec (y mod 4) 0); Z.div_mod_to_equations; lia. Qed.

Lemma div100_succ (y : Z) :
  (y + 1 - 1901) / 100
  = (y - 1901) / 100 + (if y mod 100 =? 0 then 1 else 0).
Proof. destruct (Z.eqb_spec (y mod 100) 0); Z.div_mod_to_equations; lia. Qed.

Lemma div400_succ (y : Z) :
  (y + 1 - 1601) / 400
  = (y - 1601) / 400 + (if y mod 400 =? 0 then 1 else 0).
Proof. destruct (Z.eqb_spec (y mod 400) 0); Z.div_mod_to_equations; lia. Qed.

Lemma mod100_mod4 (y : Z) : y mod 100 = 0 -> y mod 4 = 0.
Proof. intros. Z.div_mod_to_equations. lia. Qed.

Lemma mod400_mod100 (y : Z) : y mod 400 = 0 -> y mod 100 = 0.
Proof. intros. Z.div_mod_to_equations. lia. Qed.

Ltac leap_cases y :=
  pose proof (mod100_mod4 y); pose proof (mod400_mod100 y);
  destruct (Z.eqb_spec (y mod 4) 0), (Z.eqb_spec (y mod 100) 0),
    (Z.eqb_spec (y mod 400) 0); cbn [negb andb orb]; try lia.

Lemma DayFromYear_succ (y : Z) :
  DayFromYear (y + 1) = DayFromYear y + DaysInYear y.
Proof.
  unfold DayFromYear, DaysInYear.
  rewrite div4_succ, div100_succ, div400_succ. leap_cases y.
Qed.

Lemma DaysInYear_leap (y : Z) :
  DaysInYear y = 365 + (if is_leap y then 1 else 0).
Proof. unfold DaysInYear, is_leap. leap_cases y. Qed.

Lemma DayFromYear_lt (y1 y2 : Z) :
  y1 < y2 -> DayFromYear y1 < DayFromYear y2.
Proof.
  unfold DayFromYear. intros H. Z.div_mod_to_equations. lia.
Qed.

Lemma DayFromYear_le (y1 y2 : Z) :
  y1 <= y2 -> DayFromYear y1 <= DayFromYear y2.
Proof.
  intros H. destruct (Z.eq_dec y1 y2) as [->|Hne]; [lia|].
  apply Z.lt_le_incl, DayFromYear_lt. lia.
Qed.

(** [YearFromTime t] is the year whose days contain the day of [t]. *)
Lemma YearFromTime_spec (t : Z) :
  DayFromYear (YearFromTime t) <= Day t < DayFromYear (YearFromTime t + 1).
Proof.
  unfold YearFromTime.
  set (d := Day t). clearbody d.
  set (y := d * 10000 / 3652425 + 1970).
  destruct (Z.ltb_spec d (DayFromYear y)) as [H1|H1].
  - replace (y - 1 + 1) with y by lia. split; [|assumption].
    subst y. unfold DayFromYear in *. Z.div_mod_to_equations. lia.
  - destruct (Z.leb_spec (DayFromYear (y + 1)) d) as [H2|H2].
    + split; [assumption|].
      subst y. unfold DayFromYear in *. Z.div_mod_to_equations. lia.
    + split; assumption.
Qed.

(** It is the largest year that starts at or before [t], and the only
    one whose days contain the day of [t]. *)
Lemma YearFromTime_unique (t y : Z) :
  DayFromYear y <= Day t < DayFromYear (y + 1) -> YearFromTime t = y.
Proof.
  intros [Hlo Hhi]. destruct (YearFromTime_spec t) as [Ylo Yhi].
  destruct (Z.lt_trichotomy (YearFromTime t) y) as [Hlt|[Heq|Hgt]];
    [exfalso | assumption | exfalso].
  - assert (DayFromYear (YearFromTime t + 1) <= DayFromYear y)
    by (apply DayFromYear_le; lia). lia.
  - assert (DayFromYear (y + 1) <= DayFromYear (YearFromTime t))
    by (apply DayFromYear_le; lia). lia.
Qed.

Lemma YearFromTime_largest (t y : Z) :
  TimeFromYear y <= t -> y <= YearFromTime t.
Proof.
  unfold TimeFromYear. intros H.
  destruct (YearFromTime_spec t) as [_ Yhi].
  destruct (Z.le_gt_cases y (YearFromTime t)) as [|Hgt]; [assumption|].
  exfalso.
  assert (DayFromYear (YearFromTime t + 1) <= DayFromYear y)
    by (apply DayFromYear_le; lia).
  unfold Day, msPerDay in *. Z.div_mod_to_equations. lia.
Qed.

Ltac month_cases c :=
  let m := fresh "m" in
  let Hm := fresh "Hm" in
  destruct c as [y m d]; unfold valid_date in *; cbn [year month day] in *;
  assert (Hm : m = 1 \/ m = 2 \/ m = 3 \/ m = 4 \/ m = 5 \/ m = 6 \/
               m = 7 \/ m = 8 \/ m = 9 \/ m = 10 \/ m = 11 \/ m = 12)
    by lia;
  repeat (destruct Hm as [Hm|Hm]); subst m.

Lemma next_day_valid (c : CivilDate) : valid_date c -> valid_date (next_day c).
Proof.
  intros H. unfold next_day.
  destruct (Z.ltb_spec (day c) (days_in_month (year c) (month c))).
  - unfold valid_date in *. cbn [year month day]. lia.
  - destruct (Z.ltb_spec (month c) 12).
    + month_cases c;
        unfold days_in_month; cbn; destruct (is_leap y); lia.
    + unfold valid_date. cbn. lia.
Qed.

Lemma next_day_number (c : CivilDate) :
  valid_date c -> day_number (next_day c) = day_number c + 1.
Proof.
  intros H. unfold next_day.
  destruct (Z.ltb_spec (day c) (days_in_month (year c) (month c))).
  - unfold day_number. cbn [year month day]. lia.
  - destruct (Z.ltb_spec (month c) 12).
    + month_cases c; try lia;
        unfold day_number, days_before_month, days_in_month in *;
        cbn in *; destruct (is_leap y); lia.
    + assert (month c = 12) by (unfold valid_date in H; lia).
      destruct c as [y m d]. cbn [year month day] in *. subst m.
      unfold day_number, valid_date in *. cbn [year month day] in *.
      rewrite DayFromYear_succ, DaysInYear_leap.
      unfold days_before_month, days_in_month in *. cbn in *.
      destruct (is_leap y); lia.
Qed.

Lemma civil_of_day_number (n : nat) :
  valid_date (civil_of_day n) /\ day_number (civil_of_day n) = Z.of_nat n.
Proof.
  induction n as [|n [IHv IHn]].
  - split; [unfold valid_date; cbn; lia | reflexivity].
  - change (civil_of_day (S n)) with (next_day (civil_of_day n)). split.
    + now apply next_day_valid.
    + rewrite next_day_number, IHn by assumption. lia.
Qed.

(** The year, month and day of the month that the runtime reads off a
    time value are those of the civil date with the same day number. *)
Lemma date_of_day_number (t : Z) (c : CivilDate) :
  valid_date c -> Day t = day_number c ->
  YearFromTime t = year c /\ MonthFromTime t + 1 = month c /\
  DateFromTime t = day c.
Proof.
  intros Hv Hd.
  assert (HY : YearFromTime t = year c).
  { apply YearFromTime_unique.
    rewrite Hd, DayFromYear_succ, DaysInYear_leap. unfold day_number.
    month_cases c; unfold days_before_month, days_in_month in *;
      cbn in *; destruct (is_leap y); lia. }
  split; [exact HY|].
  unfold DateFromTime, MonthFromTime, DayWithinYear, InLeapYear.
  rewrite HY, Hd, DaysInYear_leap. unfold day_number.
  month_cases c; unfold days_before_month, days_in_month in *;
    cbn [Z.eqb Pos.eqb orb] in *; destruct (is_leap y);
    change (365 + 1 =? 366) with true; change (365 + 0 =? 366) with false;
    cbv iota;
    repeat match goal with
           | |- context [Z.ltb ?a ?b] =>
             destruct (Z.ltb_spec a b); try lia
           end;
    split; lia.
Qed.

Lemma length_pad (w : nat) : forall n, List.length (pad w n) = w.
Proof.
  induction w as [|w IH]; intros n; simpl; [reflexivity|].
  rewrite length_app, IH. simpl. lia.
Qed.

Lemma firstn_app_length {A : Type} (l r : list A) (n : nat) :
  List.length l = n -> firstn n (l ++ r) = l.
Proof.
  intros <-. rewrite firstn_app, Nat.sub_diag, firstn_all. simpl.
  apply app_nil_r.
Qed.

Lemma toISOString_date (t : Z) :
  0 <= YearFromTime t <= 9999 ->
  slice0 10 (toISOString t)
  = pad 4 (YearFromTime t) ++ lit "-" ++ pad 2 (MonthFromTime t + 1)
      ++ lit "-" ++ pad 2 (DateFromTime t).
Proof.
  intros [Hlo Hhi]. unfold slice0, toISOString, year_string.
  destruct (Z.leb_spec 0 (YearFromTime t)); [|lia].
  destruct (Z.leb_spec (YearFromTime t) 9999); [|lia].
  cbn [andb].
  set (rest := lit "T" ++ _).
  set (Y := pad 4 _). set (M := pad 2 (_ + 1)). set (D := pad 2 _).
  replace (Y ++ lit "-" ++ M ++ lit "-" ++ D ++ rest)
    with ((Y ++ lit "-" ++ M ++ lit "-" ++ D) ++ rest)
    by (now rewrite <- !app_assoc).
  apply firstn_app_length.
  subst Y M D. rewrite !length_app, !length_pad. reflexivity.
Qed.

(** [formatJstDate] returns today's date in the zone UTC+9, from 1970
    to the end of the year 9999. *)
Lemma formatJstDate_today (now : Z) :
  0 <= now + 32400000 < 253402300800000 ->
  Primary.formatJstDate now = format_date (jst_today now).
Proof.
  intros [Hlo Hhi]. unfold Primary.formatJstDate, jst_today, format_date.
  change (9 * 60 * 60 * 1000) with 32400000.
  set (t := now + 32400000) in *.
  change (t / 86400000) with (Day t).
  assert (Hd : 0 <= Day t < 2932897).
  { unfold Day, msPerDay. Z.div_mod_to_equations. lia. }
  destruct (civil_of_day_number (Z.to_nat (Day t))) as [Hv Hn].
  rewrite Z2Nat.id in Hn by lia.
  destruct (date_of_day_number t Hv (eq_sym Hn)) as (HY & HM & HD).
  destruct (YearFromTime_spec t) as [Ylo Yhi].
  assert (HR : 0 <= YearFromTime t <= 9999).
  { split.
    - assert (1970 <= YearFromTime t); [|lia].
      apply YearFromTime_largest. unfold TimeFromYear.
      change (DayFromYear 1970) with 0. lia.
    - destruct (Z.le_gt_cases (YearFromTime t) 9999); [assumption|].
      exfalso.
      assert (DayFromYear 10000 <= DayFromYear (YearFromTime t))
        by (apply DayFromYear_le; lia).
      change (DayFromYear 10000) with 2932897 in *. lia. }
  rewrite toISOString_date by assumption.
  now rewrite HY, HM, HD.
Qed.

End Calendar.

(* ================================================================== *)
(** * Running the handlers *)
(* ================================================================== *)

Lemma html_buffer_shift (strings : list jsstring) :
  forall values buffer,
    html_buffer buffer strings values
    = buffer ++ html_buffer [] strings values.
Proof.
  induction strings as [|s strings IH]; intros values buffer.
  - destruct values; simpl; now rewrite app_nil_r.
  - destruct values as [|v values]; simpl; [reflexivity|].
    rewrite IH, (IH values (s ++ render v)). now rewrite <- !app_assoc.
Qed.

Lemma html_buffer_cons (s : jsstring) (strings : list jsstring)
  (v : Child) (values : list Child) :
  html_buffer [] (s :: strings) (v :: values)
  = s ++ render v ++ html_buffer [] strings values.
Proof.
  simpl. rewrite html_buffer_shift. now rewrite <- app_assoc.
Qed.

Lemma html_buffer_last (s : jsstring) : html_buffer [] [s] [] = s.
Proof. reflexivity. Qed.

Lemma run_and_then {A B : Type} (m : Async A) (f : A -> Async B) :
  run (and_then m f)
  = match run m with
    | (Fulfilled a, log) => let (out, log') := run (f a) in (out, log ++ log')
    | (Rejected e, log) => (Rejected e, log)
    end.
Proof.
  induction m as [a|st k IH]; simpl.
  - now destruct (run (f a)).
  - destruct (execute st) as [r|e]; [|reflexivity].
    rewrite IH. destruct (run (k r)) as [[a|e] log]; [|reflexivity].
    now destruct (run (f a)).
Qed.

(** The range check is the inclusive lexicographic comparison. *)
Lemma in_range_iff (d lo hi : jsstring) :
  str_ge d lo && str_le d hi = true <-> lex_le lo d /\ lex_le d hi.
Proof. now rewrite andb_true_iff, str_ge_iff, str_le_iff. Qed.

Lemma out_of_range_iff (d lo hi : jsstring) :
  str_ge d lo && str_le d hi = false <-> ~ (lex_le lo d /\ lex_le d hi).
Proof.
  rewrite <- in_range_iff. destruct (str_ge d lo && str_le d hi); split;
    congruence.
Qed.

(** One fetch: the rows of the date in ascending slot order, and the
    one statement it ran. *)
Ltac run_select db d :=
  match goal with
  | |- context [Await ?st _] =>
    let E := fresh "E" in
    assert (E : execute st = execute (select_by_date db d))
      by (vm_compute; reflexivity);
    cbn [run]; rewrite E, execute_select; clear E
  end.

Lemma run_fetchEntriesForDate (db : D1Database) (d : jsstring) :
  run (Primary.fetchEntriesForDate db d)
  = (Fulfilled (order_by_slot (where_date d (trend_entries db))),
     [select_by_date db d]).
Proof.
  unfold Primary.fetchEntriesForDate, all, prepare, bind.
  cbn [and_then database statement bound app].
  unfold select_by_date, SELECT_BY_DATE.
  run_select db d. reflexivity.
Qed.

Lemma run_fetchEntriesForDate_legacy (db : D1Database) (d : jsstring) :
  run (Legacy.fetchEntriesForDate db d)
  = (Fulfilled (order_by_slot (where_date d (trend_entries db))),
     [select_by_date db d]).
Proof.
  unfold Legacy.fetchEntriesForDate, all, prepare, bind.
  cbn [and_then database statement bound app].
  unfold select_by_date, SELECT_BY_DATE.
  run_select db d. reflexivity.
Qed.

Section Rendering.

Context {marked : Marked}.

Lemma renderEntryHtml_fragment (e : Row) :
  toString (Primary.renderEntryHtml e)
  = entry_fragment (escape (Primary.slotLabel e)) (escape (fetched_at e))
      (parse (raw_response e)).
Proof.
  unfold Primary.renderEntryHtml, html, entry_fragment. cbn [toString].
  rewrite !html_buffer_cons, html_buffer_last. reflexivity.
Qed.

Lemma escape_labels :
  escape LABEL_0000 = LABEL_0000 /\ escape LABEL_1200 = LABEL_1200.
Proof. split; vm_compute; reflexivity. Qed.

Lemma slotLabel_cases (e : Row) :
  Primary.slotLabel e = if (slot e =? 0)%Z then LABEL_0000 else LABEL_1200.
Proof. unfold Primary.slotLabel, LABEL_0000, LABEL_1200. reflexivity. Qed.

Lemma renderEntries_nil :
  toString (Primary.renderEntries []) = NO_DATA_PLACEHOLDER.
Proof.
  unfold Primary.renderEntries, html, NO_DATA_PLACEHOLDER.
  cbn [List.length Nat.eqb toString html_buffer app]. reflexivity.
Qed.

Lemma renderEntries_cons (e : Row) (es : list Row) :
  toString (Primary.renderEntries (e :: es))
  = List.concat
      (map (fun x => toString (Primary.renderEntryHtml x)) (e :: es)).
Proof.
  unfold Primary.renderEntries, html.
  cbn [List.length Nat.eqb toString].
  rewrite html_buffer_cons, html_buffer_last.
  cbn [render]. rewrite render_escaped_list, app_nil_r. reflexivity.
Qed.

Lemma renderEntriesPartial_eq (es : list Row) :
  Primary.renderEntriesPartial es = Primary.renderEntries es.
Proof. apply html_identity. Qed.

(** The two route files render an entry list in the same way. *)
Lemma renderEntries_legacy (es : list Row) :
  Legacy.renderEntries es = Primary.renderEntries es.
Proof.
  unfold Legacy.renderEntries, Primary.renderEntries,
    Legacy.renderEntryHtml, Primary.renderEntryHtml,
    Legacy.slotLabel, Primary.slotLabel.
  reflexivity.
Qed.

End Rendering.

Section Page.

Context {marked : Marked}.

Lemma page_layout (p0 p0' p5 p5' p6 p6' mid inner a b c d e : jsstring) :
  p0 = a ++ p0' -> p5 = p5' ++ b ++ c -> p6 = d ++ p6' ++ e ->
  p0 ++ mid ++ p5 ++ inner ++ p6
  = a ++ (p0' ++ mid ++ p5') ++ b ++ c ++ inner ++ d ++ p6' ++ e.
Proof. intros -> -> ->. now rewrite <- !app_assoc. Qed.

(** [renderPage] returns a whole document around the entry list. *)
Lemma renderPage_full_page (date minDate maxDate : jsstring)
  (entries : list Row) :
  full_page (toString (Primary.renderEntries entries))
    (toString (Primary.renderPage date entries minDate maxDate)).
Proof.
  unfold Primary.renderPage, html, full_page. cbn [toString].
  rewrite !html_buffer_cons, html_buffer_last. cbn [render].
  match goal with
  | |- exists head tail,
        ?p0 ++ ?v0 ++ ?p1 ++ ?v1 ++ ?p2 ++ ?v2 ++ ?p3 ++ ?v3 ++ ?p4 ++ ?v4
          ++ ?p5 ++ ?inner ++ ?p6 = _ =>
    exists (skipn 18 p0
              ++ (v0 ++ p1 ++ v1 ++ p2 ++ v2 ++ p3 ++ v3 ++ p4 ++ v4)
              ++ firstn (List.length p5 - 61) p5),
           (firstn (List.length p6 - 27) (skipn 19 p6));
    rewrite <- (@page_layout p0 (skipn 18 p0) p5
                  (firstn (List.length p5 - 61) p5) p6
                  (firstn (List.length p6 - 27) (skipn 19 p6)));
    [ now rewrite <- !app_assoc
    | vm_compute; reflexivity
    | vm_compute; reflexivity
    | vm_compute; reflexivity ]
  end.
Qed.

End Page.

(* ================================================================== *)
(** * Properties of the date window *)
(* ================================================================== *)

(** C2: [resolveDate] returns its input when the input has the shape of
    [^\d{4}-\d{2}-\d{2}$] (which is exactly when [isValidDateString]
    accepts it) and the fallback for every other string, for the empty
    string and for an absent input; it is a total function. *)
Theorem resolveDate_pattern_or_fallback (s f : jsstring) :
  (Primary.isValidDateString s = true <-> MatchesDatePattern s) /\
  (MatchesDatePattern s -> Primary.resolveDate (Some s) f = s) /\
  (~ MatchesDatePattern s -> Primary.resolveDate (Some s) f = f) /\
  Primary.resolveDate (Some []) f = f /\
  Primary.resolveDate None f = f.
Proof.
  assert (Hv : forall x,
             Primary.isValidDateString x = true <-> MatchesDatePattern x)
    by (intros x; apply date_regexp_matches).
  destruct (resolveDate_spec Primary.isValidDateString s f Hv) as [H1 H2].
  repeat split; try assumption; try apply Hv; reflexivity.
Qed.

Lemma resolveDate_pattern_or_fallback_witness :
  (MatchesDatePattern (lit "2099-01-01") /\
   Primary.resolveDate (Some (lit "2099-01-01")) (lit "2026-06-01")
   = lit "2099-01-01") /\
  (~ MatchesDatePattern (lit "2099-1-1") /\
   Primary.resolveDate (Some (lit "2099-1-1")) (lit "2026-06-01")
   = lit "2026-06-01").
Proof.
  assert (H1 : MatchesDatePattern (lit "2099-01-01")).
  { exists (lit "2099"), (lit "01"), (lit "01"). vm_compute.
    repeat split; repeat constructor; discriminate. }
  assert (H2 : ~ MatchesDatePattern (lit "2099-1-1")).
  { intros H. apply MatchesDatePattern_length in H. discriminate H. }
  split; split; try assumption.
  - exact (proj1 (proj2 (resolveDate_pattern_or_fallback
                           (lit "2099-01-01") (lit "2026-06-01"))) H1).
  - exact (proj1 (proj2 (proj2 (resolveDate_pattern_or_fallback
                                  (lit "2099-1-1") (lit "2026-06-01")))) H2).
Defined.

(** C3: [validateDateRange d min max] is [true] exactly when
    [min <= d] and [d <= max] in the lexicographic order of strings,
    both bounds included. *)
Theorem validateDateRange_lexicographic (d min max : jsstring) :
  Primary.validateDateRange d min max = true
  <-> lex_le min d /\ lex_le d max.
Proof. unfold Primary.validateDateRange. apply in_range_iff. Qed.

(* ================================================================== *)
(** * Properties of the store accessor *)
(* ================================================================== *)

(** C5: [fetchEntriesForDate db d] settles, with the stored entries
    whose [date] equals [d] (each as often as it is stored), in
    ascending order of [slot]; with no such entry it settles with the
    empty list; and when the entries of the date are one of slot 0 and
    one of slot 1, the result is [slot 0; slot 1] whatever their order
    in the table. *)
Theorem fetchEntriesForDate_by_date_ascending (db : D1Database)
  (d : jsstring) :
  exists rows : list Row,
    fst (run (Primary.fetchEntriesForDate db d)) = Fulfilled rows /\
    Permutation rows (where_date d (trend_entries db)) /\
    (forall r, In r rows <-> In r (trend_entries db) /\ date r = d) /\
    StronglySorted slot_le rows /\
    ((forall r, In r (trend_entries db) -> date r <> d) -> rows = []) /\
    (forall e0 e1,
        Permutation (where_date d (trend_entries db)) [e0; e1] ->
        slot e0 = 0%Z -> slot e1 = 1%Z -> rows = [e0; e1]).
Proof.
  exists (order_by_slot (where_date d (trend_entries db))).
  rewrite run_fetchEntriesForDate.
  split; [reflexivity|].
  split; [apply order_by_slot_perm|].
  split.
  { intros r. rewrite <- where_date_In. split; apply Permutation_in;
      [|symmetry]; apply order_by_slot_perm. }
  split; [apply order_by_slot_sorted|].
  split.
  - intros Hnone.
    assert (E : where_date d (trend_entries db) = []).
    { destruct (where_date d (trend_entries db)) as [|r l] eqn:E;
        [reflexivity|].
      assert (Hr : In r (where_date d (trend_entries db)))
        by (rewrite E; now left).
      apply where_date_In in Hr. destruct Hr as [Hr Hd].
      now apply Hnone in Hr. }
    rewrite E. reflexivity.
  - intros e0 e1 HP H0 H1.
    apply sorted_perm_unique.
    + apply order_by_slot_sorted.
    + repeat constructor. unfold slot_lt. lia.
    + rewrite order_by_slot_perm. exact HP.
Qed.

Lemma fetchEntriesForDate_by_date_ascending_witness :
  fst (run (Primary.fetchEntriesForDate Sample.db (lit "2026-05-31")))
  = Fulfilled [Sample.morning; Sample.noon] /\
  fst (run (Primary.fetchEntriesForDate Sample.db (lit "2026-06-02")))
  = Fulfilled [].
Proof.
  split.
  - destruct (fetchEntriesForDate_by_date_ascending
                Sample.db (lit "2026-05-31"))
      as (rows & Hrun & _ & _ & _ & _ & Horder).
    rewrite Hrun. f_equal.
    apply Horder; [|reflexivity|reflexivity].
    vm_compute. apply perm_swap.
  - destruct (fetchEntriesForDate_by_date_ascending
                Sample.db (lit "2026-06-02"))
      as (rows & Hrun & _ & _ & _ & Hnone & _).
    rewrite Hrun. f_equal. apply Hnone.
    intros r Hr.
    repeat (destruct Hr as [<-|Hr]; [vm_compute; discriminate|]).
    destruct Hr.
Defined.

(* ================================================================== *)
(** * Properties of the rendering *)
(* ================================================================== *)

(** C6: [renderEntries] of the empty list is the fixed "no data for
    this date" placeholder (the function takes no date); of any other
    list it is the concatenation of [renderEntryHtml] of each entry, in
    the order of the list. *)
Theorem renderEntries_placeholder_or_concat {marked : Marked}
  (es : list Row) :
  (es = [] -> toString (Primary.renderEntries es) = NO_DATA_PLACEHOLDER) /\
  (es <> [] ->
   toString (Primary.renderEntries es)
   = List.concat (map (fun e => toString (Primary.renderEntryHtml e)) es)).
Proof.
  split.
  - intros ->. apply renderEntries_nil.
  - intros Hne. destruct es as [|e es]; [congruence|].
    apply renderEntries_cons.
Qed.

Lemma renderEntries_placeholder_or_concat_witness :
  toString (Primary.renderEntries (marked := paragraph_marked) [])
  = NO_DATA_PLACEHOLDER /\
  toString (Primary.renderEntries (marked := paragraph_marked)
              [Sample.morning; Sample.noon])
  = List.concat
      (map (fun e =>
              toString (Primary.renderEntryHtml (marked := paragraph_marked) e))
         [Sample.morning; Sample.noon]).
Proof.
  split.
  - apply (proj1 (renderEntries_placeholder_or_concat
                    (marked := paragraph_marked) [])).
    reflexivity.
  - apply (proj2 (renderEntries_placeholder_or_concat
                    (marked := paragraph_marked)
                    [Sample.morning; Sample.noon])).
    discriminate.
Defined.

(** C9: for an entry of slot 0 the label is "00:00 取得" and for an
    entry of slot 1 it is "12:00 取得"; the fragment of
    [renderEntryHtml] carries that label in its heading, followed by
    the escaped time of collection and the converted markdown. *)
Theorem renderEntryHtml_slot_label {marked : Marked} (e : Row) :
  (slot e = 0%Z ->
   Primary.slotLabel e = LABEL_0000 /\
   toString (Primary.renderEntryHtml e)
   = entry_fragment LABEL_0000 (escape (fetched_at e))
       (parse (raw_response e))) /\
  (slot e = 1%Z ->
   Primary.slotLabel e = LABEL_1200 /\
   toString (Primary.renderEntryHtml e)
   = entry_fragment LABEL_1200 (escape (fetched_at e))
       (parse (raw_response e))).
Proof.
  destruct escape_labels as [E0 E1].
  split; intros Hs; rewrite renderEntryHtml_fragment, slotLabel_cases, Hs;
    cbn [Z.eqb]; [rewrite E0 | rewrite E1]; auto.
Qed.

Lemma renderEntryHtml_slot_label_witness :
  Primary.slotLabel Sample.morning = LABEL_0000 /\
  Primary.slotLabel Sample.noon = LABEL_1200.
Proof.
  split.
  - apply (proj1 (renderEntryHtml_slot_label
                    (marked := paragraph_marked) Sample.morning)).
    reflexivity.
  - apply (proj2 (renderEntryHtml_slot_label
                    (marked := paragraph_marked) Sample.noon)).
    reflexivity.
Defined.

(** C10: for an entry whose slot is neither 0 nor 1, [renderEntryHtml]
    (a total function) labels the fragment "12:00 取得": the fragment
    is the one of the same entry with slot 1. *)
Theorem renderEntryHtml_other_slot {marked : Marked} (e : Row) :
  slot e <> 0%Z -> slot e <> 1%Z ->
  Primary.slotLabel e = LABEL_1200 /\
  toString (Primary.renderEntryHtml e)
  = entry_fragment LABEL_1200 (escape (fetched_at e))
      (parse (raw_response e)) /\
  Primary.renderEntryHtml e
  = Primary.renderEntryHtml
      {| id := id e; date := date e; slot := 1;
         raw_response := raw_response e; fetched_at := fetched_at e |}.
Proof.
  intros H0 _.
  assert (Hl : Primary.slotLabel e = LABEL_1200).
  { rewrite slotLabel_cases. destruct (Z.eqb_spec (slot e) 0); congruence. }
  destruct escape_labels as [_ E1].
  split; [exact Hl|]. split.
  - rewrite renderEntryHtml_fragment, Hl, E1. reflexivity.
  - unfold Primary.renderEntryHtml. cbn [raw_response fetched_at].
    f_equal. f_equal. f_equal. rewrite Hl, slotLabel_cases. 
    cbn [slot Z.eqb]. reflexivity.
Qed.

Lemma renderEntryHtml_other_slot_witness :
  Primary.slotLabel Sample.evening = LABEL_1200.
Proof.
  apply (renderEntryHtml_other_slot (marked := paragraph_marked)
           Sample.evening); discriminate.
Defined.

(* ================================================================== *)
(** * Properties of the routes *)
(* ================================================================== *)

(** The helper functions of the legacy route file are copies of those
    of the primary one. *)
Lemma legacy_resolveDate (input : option jsstring) (fallback : jsstring) :
  Legacy.resolveDate input fallback = Primary.resolveDate input fallback.
Proof. reflexivity. Qed.


Lemma legacy_DEFAULT_EARLIEST_DATE :
  Legacy.DEFAULT_EARLIEST_DATE = Primary.DEFAULT_EARLIEST_DATE.
Proof.
  unfold Legacy.DEFAULT_EARLIEST_DATE, Primary.DEFAULT_EARLIEST_DATE.
  reflexivity.
Qed.

Lemma legacy_validateDateRange (d lo hi : jsstring) :
  Legacy.validateDateRange d lo hi = Primary.validateDateRange d lo hi.
Proof. reflexivity. Qed.

Lemma legacy_fetchEntriesForDate (db : D1Database) (d : jsstring) :
  Legacy.fetchEntriesForDate db d = Primary.fetchEntriesForDate db d.
Proof.
  unfold Legacy.fetchEntriesForDate, Primary.fetchEntriesForDate.
  reflexivity.
Qed.

Lemma same_program_run {A : Type} (p q : Async A) :
  same_program p q -> run p = run q.
Proof.
  induction 1 as [a|st k1 k2 _ IH]; simpl; [reflexivity|].
  destruct (execute st) as [r|e]; [|reflexivity]. now rewrite IH.
Qed.

Lemma same_program_refl {A : Type} (p : Async A) : same_program p p.
Proof. induction p; constructor; auto. Qed.

Lemma same_program_and_then {A B : Type} (m : Async A)
  (f g : A -> Async B) :
  (forall a, same_program (f a) (g a)) ->
  same_program (and_then m f) (and_then m g).
Proof.
  intros Hfg. induction m as [a|st k IH]; simpl; [apply Hfg|].
  constructor. exact IH.
Qed.

Lemma out_of_range_response :
  c_html (html [OUT_OF_RANGE_WARNING] []) = html_response OUT_OF_RANGE_WARNING.
Proof. reflexivity. Qed.

Section Routes.

Context {marked : Marked}.

Lemma legacy_get_api_entry_unfold (c : Context) (now : Z) :
  Legacy.get_api_entry c now
  = let minDate := EARLIEST_DATE (env c) ?? Primary.DEFAULT_EARLIEST_DATE in
    let maxDate := Primary.formatJstDate now in
    let date := Primary.resolveDate (query (req c) (lit "date")) maxDate in
    if negb (Primary.validateDateRange date minDate maxDate) then
      Resolve (c_html (html [OUT_OF_RANGE_WARNING] []))
    else
      and_then (Primary.fetchEntriesForDate (DB (env c)) date)
        (fun entries => Resolve (c_html (Legacy.renderEntries entries))).
Proof.
  unfold Legacy.get_api_entry, OUT_OF_RANGE_WARNING.
  rewrite legacy_DEFAULT_EARLIEST_DATE. reflexivity.
Qed.

Lemma primary_get_api_entry_unfold (c : Context) (now : Z) :
  Primary.get_api_entry c now
  = let minDate := EARLIEST_DATE (env c) ?? Primary.DEFAULT_EARLIEST_DATE in
    let maxDate := Primary.formatJstDate now in
    let date := Primary.resolveDate (query (req c) (lit "date")) maxDate in
    if negb (Primary.validateDateRange date minDate maxDate) then
      Resolve (c_html (html [OUT_OF_RANGE_WARNING] []))
    else
      and_then (Primary.fetchEntriesForDate (DB (env c)) date)
        (fun entries =>
           Resolve (c_html (Primary.renderEntriesPartial entries))).
Proof. unfold Primary.get_api_entry, OUT_OF_RANGE_WARNING. reflexivity. Qed.

End Routes.

(** C1: [GET /api/entry], in either route file.  When the resolved date
    is outside [minDate, maxDate] the handler answers with the fixed
    warning fragment and runs no statement on the store; otherwise it
    runs the one select for the resolved date and answers with the
    rendered entry list itself, with no page around it. *)
Theorem api_entry_warning_or_entries {marked : Marked} (c : Context)
  (now : Z) :
  let db := DB (env c) in
  let minDate := EARLIEST_DATE (env c) ?? Primary.DEFAULT_EARLIEST_DATE in
  let maxDate := Primary.formatJstDate now in
  let date := Primary.resolveDate (query (req c) (lit "date")) maxDate in
  let entries := order_by_slot (where_date date (trend_entries db)) in
  (~ (lex_le minDate date /\ lex_le date maxDate) ->
   run (Primary.get_api_entry c now)
   = (Fulfilled (html_response OUT_OF_RANGE_WARNING), []) /\
   run (Legacy.get_api_entry c now)
   = (Fulfilled (html_response OUT_OF_RANGE_WARNING), [])) /\
  (lex_le minDate date /\ lex_le date maxDate ->
   run (Primary.get_api_entry c now)
   = (Fulfilled (html_response (toString (Primary.renderEntries entries))),
      [select_by_date db date]) /\
   run (Legacy.get_api_entry c now)
   = (Fulfilled (html_response (toString (Primary.renderEntries entries))),
      [select_by_date db date])).
Proof.
  cbv zeta.
  rewrite primary_get_api_entry_unfold, legacy_get_api_entry_unfold.
  cbv zeta. unfold Primary.validateDateRange.
  split; intros H.
  - apply out_of_range_iff in H. rewrite H. cbn [negb run].
    rewrite out_of_range_response. auto.
  - apply in_range_iff in H. rewrite H. cbn [negb].
    rewrite !run_and_then, run_fetchEntriesForDate. cbn [run app].
    rewrite renderEntriesPartial_eq.
    split; reflexivity.
Qed.

Lemma api_entry_warning_or_entries_witness :
  run (Primary.get_api_entry (marked := paragraph_marked)
         (Sample.request (lit "2099-01-01")) Sample.now)
  = (Fulfilled (html_response OUT_OF_RANGE_WARNING), []) /\
  snd (run (Legacy.get_api_entry (marked := paragraph_marked)
              (Sample.request (lit "2026-05-31")) Sample.now))
  = [select_by_date Sample.db (lit "2026-05-31")].
Proof.
  split.
  - refine (proj1 (proj1 (api_entry_warning_or_entries
                            (marked := paragraph_marked)
                            (Sample.request (lit "2099-01-01")) Sample.now)
                     _)).
    apply out_of_range_iff. vm_compute. reflexivity.
  - rewrite (proj2 (proj2 (api_entry_warning_or_entries
                             (marked := paragraph_marked)
                             (Sample.request (lit "2026-05-31")) Sample.now)
                      ltac:(apply in_range_iff; vm_compute; reflexivity))).
    vm_compute. reflexivity.
Defined.

(** C4: the two [GET /api/entry] handlers agree.  For every context
    (the [EARLIEST_DATE] setting, the store, the request) and every
    current time they are the same program, step by step, and running
    them gives the same response and the same statements. *)
Theorem api_entry_handlers_agree {marked : Marked} (c : Context) (now : Z) :
  same_program (Primary.get_api_entry c now) (Legacy.get_api_entry c now) /\
  run (Primary.get_api_entry c now) = run (Legacy.get_api_entry c now).
Proof.
  assert (H : same_program (Primary.get_api_entry c now)
                (Legacy.get_api_entry c now)).
  { rewrite primary_get_api_entry_unfold, legacy_get_api_entry_unfold.
    cbv zeta.
    destruct (negb (Primary.validateDateRange _ _ _)).
    - apply same_program_refl.
    - apply same_program_and_then. intros entries.
      rewrite renderEntriesPartial_eq.
      replace (Legacy.renderEntries entries)
        with (Primary.renderEntries entries)
        by (symmetry; apply renderEntries_legacy).
      apply same_program_refl. }
  split; [exact H | now apply same_program_run].
Qed.

(** C7: the full-page routes [GET /] and [GET /date/:date].  The
    requested date (query parameter, respectively path parameter) is
    resolved with [maxDate] as fallback.  In range, the handler runs
    the select for that date and renders the page with its entries; out
    of range, it runs no statement and renders the page with the empty
    list.  In both cases it settles with a full HTML document around
    the entry list. *)
Theorem full_page_routes {marked : Marked} (c : Context) (now : Z) :
  let db := DB (env c) in
  let minDate := EARLIEST_DATE (env c) ?? Primary.DEFAULT_EARLIEST_DATE in
  let maxDate := Primary.formatJstDate now in
  let serves (requested : option jsstring) (route : Async Response) :=
    let date := Primary.resolveDate requested maxDate in
    let page (entries : list Row) :=
      toString (Primary.renderPage date entries minDate maxDate) in
    (lex_le minDate date /\ lex_le date maxDate ->
     run route
     = (Fulfilled
          (html_response
             (page (order_by_slot (where_date date (trend_entries db))))),
        [select_by_date db date])) /\
    (~ (lex_le minDate date /\ lex_le date maxDate) ->
     run route = (Fulfilled (html_response (page [])), [])) /\
    (forall entries,
        full_page (toString (Primary.renderEntries entries)) (page entries))
  in
  serves (query (req c) (lit "date")) (Primary.get_index c now) /\
  serves (param (req c) (lit "date")) (Primary.get_date c now).
Proof.
  cbv zeta. unfold Primary.get_index, Primary.get_date. cbv zeta.
  unfold Primary.validateDateRange.
  split; (split; [|split]); intros H;
    try apply renderPage_full_page.
  - apply in_range_iff in H. rewrite H.
    rewrite run_and_then, run_fetchEntriesForDate. reflexivity.
  - apply out_of_range_iff in H. rewrite H. reflexivity.
  - apply in_range_iff in H. rewrite H.
    rewrite run_and_then, run_fetchEntriesForDate. reflexivity.
  - apply out_of_range_iff in H. rewrite H. reflexivity.
Qed.

Lemma full_page_routes_witness :
  snd (run (Primary.get_index (marked := paragraph_marked)
              (Sample.request (lit "2026-05-31")) Sample.now))
  = [select_by_date Sample.db (lit "2026-05-31")] /\
  snd (run (Primary.get_date (marked := paragraph_marked)
              (Sample.request (lit "2099-01-01")) Sample.now))
  = [].
Proof.
  split.
  - rewrite (proj1 (proj1 (full_page_routes (marked := paragraph_marked)
                             (Sample.request (lit "2026-05-31")) Sample.now))
               ltac:(apply in_range_iff; vm_compute; reflexivity)).
    vm_compute. reflexivity.
  - rewrite (proj1 (proj2 (proj2 (full_page_routes
                                    (marked := paragraph_marked)
                                    (Sample.request (lit "2099-01-01"))
                                    Sample.now)))
               ltac:(apply out_of_range_iff; vm_compute; reflexivity)).
    reflexivity.
Defined.

Section Today0000.

Local Open Scope Z_scope.








End Today0000.




(* ================================================================== *)
(** * The order of strings *)
(* ================================================================== *)

Lemma lex_le_refl (x : jsstring) : lex_le x x.
Proof. induction x; constructor; assumption. Qed.

Lemma lex_le_trans (x y z : jsstring) :
  lex_le x y -> lex_le y z -> lex_le x z.
Proof.
  intros Hxy. revert z. induction Hxy as [y|a b x y Hab|a x y Hxy IH];
    intros z Hyz.
  - constructor.
  - inversion Hyz; subst; [apply lex_le_lt; lia | now apply lex_le_lt].
  - inversion Hyz; subst; [now apply lex_le_lt | apply lex_le_eq; auto].
Qed.

Lemma lex_le_antisym (x y : jsstring) : lex_le x y -> lex_le y x -> x = y.
Proof.
  induction 1 as [y|a b x y Hab|a x y Hxy IH]; intros Hyx.
  - now inversion Hyx.
  - inversion Hyx; subst; lia.
  - inversion Hyx; subst; [lia | f_equal; auto].
Qed.

Lemma lex_le_total (x y : jsstring) : lex_le x y \/ lex_le y x.
Proof.
  revert y. induction x as [|a x IH]; intros y; [left; constructor|].
  destruct y as [|b y]; [right; constructor|].
  destruct (N.lt_trichotomy a b) as [H|[->|H]].
  - left. now apply lex_le_lt.
  - destruct (IH y); [left | right]; now apply lex_le_eq.
  - right. now apply lex_le_lt.
Qed.

(** [x < y] is [x <= y] without [y <= x]. *)
Lemma str_lt_iff (x y : jsstring) :
  str_lt x y = true <-> ~ lex_le y x.
Proof.
  rewrite <- str_lt_false_iff. destruct (str_lt x y); split; congruence.
Qed.

Lemma str_lt_lex_le (x y : jsstring) : str_lt x y = true -> lex_le x y.
Proof.
  rewrite str_lt_iff. destruct (lex_le_total x y); tauto.
Qed.

Lemma str_lt_trans (x y z : jsstring) :
  str_lt x y = true -> str_lt y z = true -> str_lt x z = true.
Proof.
  rewrite !str_lt_iff. intros Hxy Hyz Hzx.
  destruct (lex_le_total y z) as [H|H]; [|contradiction].
  apply Hxy. eapply lex_le_trans; eassumption.
Qed.

Lemma str_lt_app_prefix (p x y : jsstring) :
  str_lt (p ++ x) (p ++ y) = str_lt x y.
Proof.
  induction p as [|a p IH]; simpl; [reflexivity|].
  now rewrite N.eqb_refl.
Qed.

Lemma str_lt_app_same_length (x y u v : jsstring) :
  List.length x = List.length y -> str_lt x y = true ->
  str_lt (x ++ u) (y ++ v) = true.
Proof.
  revert y. induction x as [|a x IH]; intros [|b y] Hlen Hlt;
    simpl in *; try discriminate.
  destruct (a =? b)%N; [apply IH; [lia | assumption] | assumption].
Qed.

(* ================================================================== *)
(** * More on the date window *)
(* ================================================================== *)

(** X1: the window of [validateDateRange] is not empty exactly when
    [minDate <= maxDate]; then both bounds are in it.  With
    [maxDate < minDate] (an [EARLIEST_DATE] in the future) every date is
    out of range. *)
Theorem validateDateRange_window (min max : jsstring) :
  ((exists d, Primary.validateDateRange d min max = true) <-> lex_le min max)
  /\ (lex_le min max ->
      Primary.validateDateRange min min max = true /\
      Primary.validateDateRange max min max = true)
  /\ (str_lt max min = true ->
      forall d, Primary.validateDateRange d min max = false).
Proof.
  assert (Hb : lex_le min max ->
               Primary.validateDateRange min min max = true /\
               Primary.validateDateRange max min max = true).
  { intros H. unfold Primary.validateDateRange.
    rewrite !in_range_iff. auto using lex_le_refl. }
  split; [|split; [exact Hb|]].
  - split.
    + intros [d Hd]. unfold Primary.validateDateRange in Hd.
      apply in_range_iff in Hd. destruct Hd. eapply lex_le_trans; eassumption.
    + intros H. exists min. now apply Hb.
  - intros Hlt d. unfold Primary.validateDateRange.
    apply out_of_range_iff. intros [H1 H2].
    apply str_lt_iff in Hlt. apply Hlt. eapply lex_le_trans; eassumption.
Qed.

Lemma validateDateRange_window_witness :
  Primary.validateDateRange (lit "2025-12-25")
    (lit "2025-12-25") (lit "2026-06-01") = true /\
  Primary.validateDateRange (lit "2026-06-01")
    (lit "2027-01-01") (lit "2026-06-01") = false.
Proof.
  split.
  - apply (proj1 (proj2 (validateDateRange_window
                           (lit "2025-12-25") (lit "2026-06-01")))).
    apply str_le_iff. vm_compute. reflexivity.
  - apply (proj2 (proj2 (validateDateRange_window
                           (lit "2027-01-01") (lit "2026-06-01")))).
    vm_compute. reflexivity.
Defined.

(** A date that is in range stays in range when the window is widened,
    by an earlier [minDate] or a later [maxDate]. *)
Lemma validateDateRange_widen (d min max min' max' : jsstring) :
  lex_le min' min -> lex_le max max' ->
  Primary.validateDateRange d min max = true ->
  Primary.validateDateRange d min' max' = true.
Proof.
  unfold Primary.validateDateRange. rewrite !in_range_iff.
  intros Hmin Hmax [H1 H2]. split; eapply lex_le_trans; eassumption.
Qed.

(** X2: [resolveDate] returns its input or the fallback, and resolving
    its own result changes nothing; when the fallback has the date
    shape, so has every result. *)
Theorem resolveDate_idempotent (input : option jsstring) (f : jsstring) :
  (Primary.resolveDate input f = f \/
   input = Some (Primary.resolveDate input f)) /\
  Primary.resolveDate (Some (Primary.resolveDate input f)) f
  = Primary.resolveDate input f /\
  (MatchesDatePattern f -> MatchesDatePattern (Primary.resolveDate input f)).
Proof.
  assert (Hv : forall x,
             Primary.isValidDateString x = true <-> MatchesDatePattern x)
    by (intros x; apply date_regexp_matches).
  assert (Hf : Primary.resolveDate (Some f) f = f).
  { unfold Primary.resolveDate.
    destruct (negb (truthy f) || negb (Primary.isValidDateString f));
      reflexivity. }
  destruct input as [s|]; [|cbn; auto].
  assert (Hs : Primary.resolveDate (Some s) f = f \/
               (Primary.resolveDate (Some s) f = s /\
                truthy s = true /\ Primary.isValidDateString s = true)).
  { unfold Primary.resolveDate.
    destruct (truthy s), (Primary.isValidDateString s); cbn; auto. }
  destruct Hs as [E|(E & Et & Ev)]; rewrite E.
  - auto.
  - split; [now right|]. split; [exact E|]. intros _. now apply Hv.
Qed.

Lemma resolveDate_idempotent_witness :
  MatchesDatePattern
    (Primary.resolveDate (Some (lit "tomorrow")) (lit "2026-06-01")).
Proof.
  apply (proj2 (proj2 (resolveDate_idempotent
                         (Some (lit "tomorrow")) (lit "2026-06-01")))).
  exists (lit "2026"), (lit "06"), (lit "01"). vm_compute.
  repeat split; repeat constructor; discriminate.
Defined.

(* ================================================================== *)
(** * The calendar and the order of formatted dates *)
(* ================================================================== *)

Section Chronology.

Local Open Scope Z_scope.

Lemma pad_digits (w : nat) : forall n, Forall IsDigit (pad w n).
Proof.
  induction w as [|w IH]; intros n; cbn [pad]; [constructor|].
  apply Forall_app. split; [apply IH|].
  constructor; [|constructor].
  unfold IsDigit.
  assert (0 <= n mod 10 < 10) by (apply Z.mod_pos_bound; lia). lia.
Qed.

(** A formatted civil date always has the shape [YYYY-MM-DD]. *)
Lemma format_date_pattern (c : CivilDate) : MatchesDatePattern (format_date c).
Proof.
  exists (pad 4 (year c)), (pad 2 (month c)), (pad 2 (day c)).
  rewrite !length_pad. repeat split; try apply pad_digits.
Qed.

(** On numbers of at most [w] digits, the order of the padded decimal
    strings is the order of the numbers. *)
Lemma pad_lt (w : nat) :
  forall a b, 0 <= a < b -> b < 10 ^ Z.of_nat w ->
              str_lt (pad w a) (pad w b) = true.
Proof.
  induction w as [|w IH]; intros a b Hab Hb.
  - simpl in Hb. lia.
  - rewrite Nat2Z.inj_succ, Z.pow_succ_r in Hb by lia.
    cbn [pad].
    assert (Hq : a / 10 <= b / 10) by (apply Z.div_le_mono; lia).
    destruct (Z.eq_dec (a / 10) (b / 10)) as [E|NE].
    + rewrite E, str_lt_app_prefix. cbn [str_lt].
      assert (Hm : a mod 10 < b mod 10)
        by (Z.div_mod_to_equations; lia).
      assert (0 <= a mod 10 < 10) by (apply Z.mod_pos_bound; lia).
      assert (0 <= b mod 10 < 10) by (apply Z.mod_pos_bound; lia).
      destruct (N.eqb_spec (Z.to_N (48 + a mod 10)) (Z.to_N (48 + b mod 10)));
        [lia|].
      apply N.ltb_lt. lia.
    + apply str_lt_app_same_length; [now rewrite !length_pad|].
      apply IH; [|Z.div_mod_to_equations; lia].
      split; [apply Z.div_pos; lia | lia].
Qed.

(** The year, month and day of a civil date, compared in this order. *)
Lemma format_date_lt (c1 c2 : CivilDate) :
  0 <= year c1 -> 0 <= month c1 -> 0 <= day c1 ->
  year c2 < 10000 -> month c2 < 100 -> day c2 < 100 ->
  year c1 < year c2 \/
  (year c1 = year c2 /\
   (month c1 < month c2 \/ (month c1 = month c2 /\ day c1 < day c2))) ->
  str_lt (format_date c1) (format_date c2) = true.
Proof.
  intros Hy Hm Hd Hy2 Hm2 Hd2 H. unfold format_date.
  destruct H as [H|[-> [H|[-> H]]]].
  - apply str_lt_app_same_length; [now rewrite !length_pad|].
    apply pad_lt; [lia | exact Hy2].
  - rewrite !str_lt_app_prefix.
    apply str_lt_app_same_length; [now rewrite !length_pad|].
    apply pad_lt; [lia | exact Hm2].
  - rewrite !str_lt_app_prefix. apply pad_lt; [lia | exact Hd2].
Qed.

Lemma days_in_month_bound (y m : Z) : 28 <= days_in_month y m <= 31.
Proof.
  unfold days_in_month.
  destruct (m =? 2); [destruct (is_leap y); lia|].
  destruct ((m =? 4) || (m =? 6) || (m =? 9) || (m =? 11))%bool; lia.
Qed.

Lemma next_day_later (c : CivilDate) :
  valid_date c -> 0 <= year c -> year (next_day c) <= 9999 ->
  str_lt (format_date c) (format_date (next_day c)) = true.
Proof.
  intros [Hm Hd] Hy Hy'.
  pose proof (days_in_month_bound (year c) (month c)).
  apply format_date_lt; try lia; unfold next_day in *;
    destruct (Z.ltb_spec (day c) (days_in_month (year c) (month c)));
    try destruct (Z.ltb_spec (month c) 12); cbn [year month day] in *; lia.
Qed.

Lemma day_number_year_bounds (c : CivilDate) :
  valid_date c ->
  DayFromYear (year c) <= day_number c < DayFromYear (year c + 1).
Proof.
  intros Hv. rewrite DayFromYear_succ, DaysInYear_leap. unfold day_number.
  destruct c as [y m d]. unfold valid_date in Hv. cbn [year month day] in *.
  assert (Hm : m = 1 \/ m = 2 \/ m = 3 \/ m = 4 \/ m = 5 \/ m = 6 \/
               m = 7 \/ m = 8 \/ m = 9 \/ m = 10 \/ m = 11 \/ m = 12)
    by lia.
  repeat (destruct Hm as [Hm|Hm]); subst m;
    unfold days_before_month, days_in_month in *; cbn in *;
    destruct (is_leap y); lia.
Qed.

(** The civil dates of the days before 10000-01-01 have four-digit
    years. *)
Lemma civil_of_day_year (n : nat) :
  Z.of_nat n < 2932897 -> 1970 <= year (civil_of_day n) <= 9999.
Proof.
  intros Hn. destruct (civil_of_day_number n) as [Hv Hd].
  destruct (day_number_year_bounds Hv) as [Hlo Hhi]. rewrite Hd in *.
  split.
  - destruct (Z.le_gt_cases 1970 (year (civil_of_day n))); [assumption|].
    assert (DayFromYear (year (civil_of_day n) + 1) <= DayFromYear 1970)
      by (apply DayFromYear_le; lia).
    change (DayFromYear 1970) with 0 in *. lia.
  - destruct (Z.le_gt_cases (year (civil_of_day n)) 9999); [assumption|].
    assert (DayFromYear 10000 <= DayFromYear (year (civil_of_day n)))
      by (apply DayFromYear_le; lia).
    change (DayFromYear 10000) with 2932897 in *. lia.
Qed.

(** Later days have later date strings. *)
Lemma civil_of_day_lt (n1 n2 : nat) :
  (n1 < n2)%nat -> Z.of_nat n2 < 2932897 ->
  str_lt (format_date (civil_of_day n1)) (format_date (civil_of_day n2))
  = true.
Proof.
  intros Hlt. induction n2 as [|n2 IH]; intros Hn2; [lia|].
  assert (Hstep : str_lt (format_date (civil_of_day n2))
                    (format_date (civil_of_day (S n2))) = true).
  { change (civil_of_day (S n2)) with (next_day (civil_of_day n2)).
    destruct (civil_of_day_number n2) as [Hv _].
    assert (Hn2' : Z.of_nat n2 < 2932897) by lia.
    pose proof (@civil_of_day_year n2 Hn2').
    pose proof (@civil_of_day_year (S n2) Hn2) as HS.
    change (civil_of_day (S n2)) with (next_day (civil_of_day n2)) in HS.
    apply next_day_later; [assumption | lia | lia]. }
  destruct (Nat.eq_dec n1 n2) as [->|NE]; [exact Hstep|].
  eapply str_lt_trans; [apply IH; lia | exact Hstep].
Qed.

End Chronology.

Section Today.

Local Open Scope Z_scope.

Lemma jst_today_day (now : Z) :
  jst_today now = civil_of_day (Z.to_nat (jst_day now)).
Proof. reflexivity. Qed.

Lemma jst_day_range (now : Z) :
  four_digit_era now -> 0 <= jst_day now < 2932897.
Proof.
  unfold four_digit_era, jst_day. intros H.
  change (9 * 60 * 60 * 1000) with 32400000.
  Z.div_mod_to_equations. lia.
Qed.

Lemma jst_day_mono (now1 now2 : Z) :
  now1 <= now2 -> jst_day now1 <= jst_day now2.
Proof.
  intros H. unfold jst_day. apply Z.div_le_mono; lia.
Qed.

Lemma formatJstDate_order (now1 now2 : Z) :
  four_digit_era now1 -> four_digit_era now2 ->
  jst_day now1 < jst_day now2 ->
  str_lt (Primary.formatJstDate now1) (Primary.formatJstDate now2) = true.
Proof.
  intros H1 H2 Hlt.
  rewrite !formatJstDate_today, !jst_today_day by assumption.
  pose proof (jst_day_range H1). pose proof (jst_day_range H2).
  apply civil_of_day_lt; lia.
Qed.

End Today.

(** X3: from 1970 to the end of the year 9999, the string that
    [formatJstDate] returns has the shape [YYYY-MM-DD] and passes
    [isValidDateString]; so with it as fallback, [resolveDate] always
    returns a string of that shape. *)
Theorem formatJstDate_date_shape (now : Z) :
  four_digit_era now ->
  MatchesDatePattern (Primary.formatJstDate now) /\
  Primary.isValidDateString (Primary.formatJstDate now) = true /\
  (forall input,
      MatchesDatePattern
        (Primary.resolveDate input (Primary.formatJstDate now))).
Proof.
  intros H.
  assert (Hp : MatchesDatePattern (Primary.formatJstDate now)).
  { rewrite formatJstDate_today by assumption. apply format_date_pattern. }
  split; [exact Hp|]. split.
  - now apply date_regexp_matches.
  - intros [s|]; [|exact Hp].
    unfold Primary.resolveDate.
    destruct (negb (truthy s)); [exact Hp|]. cbn [orb].
    destruct (Primary.isValidDateString s) eqn:E; [|exact Hp].
    now apply date_regexp_matches.
Qed.

Lemma formatJstDate_date_shape_witness :
  Primary.isValidDateString (Primary.formatJstDate Sample.now) = true.
Proof.
  apply (formatJstDate_date_shape (now := Sample.now)).
  unfold four_digit_era, Sample.now. lia.
Defined.

(** X4: twenty-four hours later [formatJstDate] returns the next day of
    the calendar (month lengths and leap years included), from 1970 to
    the end of the year 9999. *)
Theorem formatJstDate_next_day (now : Z) :
  four_digit_era now -> four_digit_era (now + 86400000)%Z ->
  Primary.formatJstDate (now + 86400000)
  = format_date (next_day (jst_today now)).
Proof.
  intros H1 H2. rewrite formatJstDate_today by assumption.
  f_equal. rewrite !jst_today_day.
  change (next_day (civil_of_day (Z.to_nat (jst_day now))))
    with (civil_of_day (S (Z.to_nat (jst_day now)))).
  f_equal. pose proof (jst_day_range H1).
  rewrite <- Z2Nat.inj_succ by lia. f_equal.
  unfold jst_day. change (9 * 60 * 60 * 1000)%Z with 32400000%Z.
  Z.div_mod_to_equations. lia.
Qed.

Lemma formatJstDate_next_day_witness :
  Primary.formatJstDate (1709218799000 + 86400000) = lit "2024-03-01".
Proof.
  rewrite (formatJstDate_next_day (now := 1709218799000)).
  - vm_compute. reflexivity.
  - unfold four_digit_era. lia.
  - unfold four_digit_era. lia.
Defined.

(** X5: on the strings of [formatJstDate], from 1970 to the end of the
    year 9999, the lexicographic order is the order of the days at
    UTC+9, and two instants give the same string exactly when they lie
    in the same day at UTC+9.  So [maxDate] never goes back as time
    passes, and a date that is in range stays in range later. *)
Theorem formatJstDate_chronological (now1 now2 : Z) :
  four_digit_era now1 -> four_digit_era now2 ->
  (lex_le (Primary.formatJstDate now1) (Primary.formatJstDate now2)
   <-> (jst_day now1 <= jst_day now2)%Z) /\
  (Primary.formatJstDate now1 = Primary.formatJstDate now2
   <-> jst_day now1 = jst_day now2) /\
  ((now1 <= now2)%Z ->
   forall d min,
     Primary.validateDateRange d min (Primary.formatJstDate now1) = true ->
     Primary.validateDateRange d min (Primary.formatJstDate now2) = true).
Proof.
  intros H1 H2.
  assert (Hsame : jst_day now1 = jst_day now2 ->
                  Primary.formatJstDate now1 = Primary.formatJstDate now2).
  { intros E. rewrite !formatJstDate_today, !jst_today_day by assumption.
    now rewrite E. }
  assert (Hle : lex_le (Primary.formatJstDate now1)
                  (Primary.formatJstDate now2)
                <-> (jst_day now1 <= jst_day now2)%Z).
  { split.
    - intros L. destruct (Z.le_gt_cases (jst_day now1) (jst_day now2));
        [assumption|].
      exfalso. assert (Hlt : (jst_day now2 < jst_day now1)%Z) by lia.
      apply (formatJstDate_order H2 H1) in Hlt.
      apply str_lt_iff in Hlt. contradiction.
    - intros L. destruct (Z.eq_dec (jst_day now1) (jst_day now2)) as [E|NE].
      + rewrite (Hsame E). apply lex_le_refl.
      + apply str_lt_lex_le, formatJstDate_order; try assumption. lia. }
  split; [exact Hle|]. split.
  - split; [|exact Hsame]. intros E.
    destruct (Z.lt_trichotomy (jst_day now1) (jst_day now2))
      as [Hlt|[Heq|Hgt]]; [exfalso | assumption | exfalso].
    + apply (formatJstDate_order H1 H2) in Hlt.
      rewrite E in Hlt. apply str_lt_iff in Hlt.
      apply Hlt, lex_le_refl.
    + apply (formatJstDate_order H2 H1) in Hgt.
      rewrite E in Hgt. apply str_lt_iff in Hgt.
      apply Hgt, lex_le_refl.
  - intros Hnow d min. apply validateDateRange_widen; [apply lex_le_refl|].
    apply Hle. now apply jst_day_mono.
Qed.

Lemma formatJstDate_chronological_witness :
  lex_le (Primary.formatJstDate 1709218799000)
    (Primary.formatJstDate Sample.now).
Proof.
  apply (proj1 (@formatJstDate_chronological 1709218799000 Sample.now
                  ltac:(unfold four_digit_era; lia)
                  ltac:(unfold four_digit_era, Sample.now; lia))).
  vm_compute. discriminate.
Defined.

(* ================================================================== *)
(** * More on the routes *)
(* ================================================================== *)

Lemma resolveDate_unusable (requested : option jsstring) (f : jsstring) :
  unusable requested -> Primary.resolveDate requested f = f.
Proof.
  intros Hu. destruct requested as [s|]; [|reflexivity].
  unfold Primary.resolveDate.
  destruct (negb (truthy s)); [reflexivity|]. cbn [orb].
  destruct (Primary.isValidDateString s) eqn:E; [|reflexivity].
  apply date_regexp_matches in E. now apply Hu in E.
Qed.

Section MoreRoutes.

Context {marked : Marked}.

Lemma primary_get_index_unfold (c : Context) (now : Z) :
  Primary.get_index c now
  = let minDate := EARLIEST_DATE (env c) ?? Primary.DEFAULT_EARLIEST_DATE in
    let maxDate := Primary.formatJstDate now in
    let date := Primary.resolveDate (query (req c) (lit "date")) maxDate in
    and_then (if Primary.validateDateRange date minDate maxDate
              then Primary.fetchEntriesForDate (DB (env c)) date
              else Resolve [])
      (fun entries =>
         Resolve (c_html (Primary.renderPage date entries minDate maxDate))).
Proof. reflexivity. Qed.

Lemma primary_get_date_unfold (c : Context) (now : Z) :
  Primary.get_date c now
  = let minDate := EARLIEST_DATE (env c) ?? Primary.DEFAULT_EARLIEST_DATE in
    let maxDate := Primary.formatJstDate now in
    let date := Primary.resolveDate (param (req c) (lit "date")) maxDate in
    and_then (if Primary.validateDateRange date minDate maxDate
              then Primary.fetchEntriesForDate (DB (env c)) date
              else Resolve [])
      (fun entries =>
         Resolve (c_html (Primary.renderPage date entries minDate maxDate))).
Proof. reflexivity. Qed.

Lemma legacy_get_api_meta_unfold (c : Context) (now : Z) :
  Legacy.get_api_meta c now
  = let maxDate := Primary.formatJstDate now in
    json_response
      [(lit "minDate",
        EARLIEST_DATE (env c) ?? Primary.DEFAULT_EARLIEST_DATE);
       (lit "maxDate", maxDate);
       (lit "defaultDate",
        Primary.resolveDate (query (req c) (lit "date")) maxDate)].
Proof.
  unfold Legacy.get_api_meta. rewrite legacy_DEFAULT_EARLIEST_DATE.
  reflexivity.
Qed.

(** What a page route does, by the range check on the resolved date. *)
Lemma run_page (db : D1Database) (date minDate maxDate : jsstring) :
  run (and_then (if Primary.validateDateRange date minDate maxDate
                 then Primary.fetchEntriesForDate db date
                 else Resolve [])
         (fun entries =>
            Resolve
              (c_html (Primary.renderPage date entries minDate maxDate))))
  = if Primary.validateDateRange date minDate maxDate
    then (Fulfilled
            (html_response
               (toString
                  (Primary.renderPage date
                     (order_by_slot (where_date date (trend_entries db)))
                     minDate maxDate))),
          [select_by_date db date])
    else (Fulfilled
            (html_response
               (toString (Primary.renderPage date [] minDate maxDate))),
          []).
Proof.
  destruct (Primary.validateDateRange date minDate maxDate).
  - rewrite run_and_then, run_fetchEntriesForDate. reflexivity.
  - reflexivity.
Qed.

(** What an entry route does, by the range check on the resolved
    date. *)
Lemma run_entry (db : D1Database) (date minDate maxDate : jsstring)
  (render_list : list Row -> HtmlEscapedString) :
  run (if negb (Primary.validateDateRange date minDate maxDate)
       then Resolve (c_html (html [OUT_OF_RANGE_WARNING] []))
       else and_then (Primary.fetchEntriesForDate db date)
              (fun entries => Resolve (c_html (render_list entries))))
  = if Primary.validateDateRange date minDate maxDate
    then (Fulfilled
            (html_response
               (toString
                  (render_list
                     (order_by_slot (where_date date (trend_entries db)))))),
          [select_by_date db date])
    else (Fulfilled (html_response OUT_OF_RANGE_WARNING), []).
Proof.
  destruct (Primary.validateDateRange date minDate maxDate); cbn [negb].
  - rewrite run_and_then, run_fetchEntriesForDate. reflexivity.
  - cbn [run]. now rewrite out_of_range_response.
Qed.

End MoreRoutes.

(** X6: a [date] parameter that is absent, empty or not of the shape
    [YYYY-MM-DD] is handled, by every route, exactly like a request
    with no parameter. *)
Theorem unusable_date_like_no_date {marked : Marked} (c : Context)
  (now : Z) :
  (unusable (query (req c) (lit "date")) ->
   Primary.get_index c now = Primary.get_index (without_parameters c) now /\
   Primary.get_api_entry c now
   = Primary.get_api_entry (without_parameters c) now /\
   Legacy.get_api_entry c now
   = Legacy.get_api_entry (without_parameters c) now /\
   Legacy.get_api_meta c now
   = Legacy.get_api_meta (without_parameters c) now) /\
  (unusable (param (req c) (lit "date")) ->
   Primary.get_date c now = Primary.get_date (without_parameters c) now).
Proof.
  split; intros Hu.
  - rewrite !primary_get_index_unfold, !primary_get_api_entry_unfold,
      !legacy_get_api_entry_unfold, !legacy_get_api_meta_unfold.
    cbv zeta. rewrite (resolveDate_unusable _ Hu).
    repeat split; reflexivity.
  - rewrite !primary_get_date_unfold. cbv zeta.
    rewrite (resolveDate_unusable _ Hu). reflexivity.
Qed.

Lemma unusable_date_like_no_date_witness :
  Primary.get_api_entry (marked := paragraph_marked)
    (Sample.request (lit "2026-5-31")) Sample.now
  = Primary.get_api_entry (marked := paragraph_marked)
      (without_parameters (Sample.request (lit "2026-5-31"))) Sample.now.
Proof.
  refine (proj1 (proj2 (proj1 (unusable_date_like_no_date
                                 (marked := paragraph_marked)
                                 (Sample.request (lit "2026-5-31"))
                                 Sample.now) _))).
  intros s Hs Hm. apply MatchesDatePattern_length in Hm.
  vm_compute in Hs. injection Hs as <-. discriminate Hm.
Defined.

(** X7: a request to [GET /api/entry] without a usable [date] is
    answered for today: when [minDate <= maxDate] the handler runs the
    select bound to [maxDate] and returns the entry list of that date;
    when [maxDate < minDate] it returns the warning and runs nothing. *)
Theorem api_entry_defaults_to_today {marked : Marked} (c : Context)
  (now : Z) :
  unusable (query (req c) (lit "date")) ->
  let db := DB (env c) in
  let minDate := EARLIEST_DATE (env c) ?? Primary.DEFAULT_EARLIEST_DATE in
  let maxDate := Primary.formatJstDate now in
  (lex_le minDate maxDate ->
   run (Primary.get_api_entry c now)
   = (Fulfilled
        (html_response
           (toString
              (Primary.renderEntries
                 (order_by_slot (where_date maxDate (trend_entries db)))))),
      [select_by_date db maxDate])) /\
  (str_lt maxDate minDate = true ->
   run (Primary.get_api_entry c now)
   = (Fulfilled (html_response OUT_OF_RANGE_WARNING), [])).
Proof.
  intros Hu. cbv zeta. rewrite primary_get_api_entry_unfold. cbv zeta.
  rewrite (resolveDate_unusable _ Hu), run_entry.
  unfold Primary.validateDateRange. split; intros H.
  - assert (E : str_ge (Primary.formatJstDate now)
                  (EARLIEST_DATE (env c) ?? Primary.DEFAULT_EARLIEST_DATE)
                && str_le (Primary.formatJstDate now)
                     (Primary.formatJstDate now) = true)
      by (apply in_range_iff; auto using lex_le_refl).
    rewrite E, renderEntriesPartial_eq. reflexivity.
  - unfold str_ge. rewrite H. reflexivity.
Qed.

Lemma api_entry_defaults_to_today_witness :
  snd (run (Primary.get_api_entry (marked := paragraph_marked)
              Sample.bare_request Sample.now))
  = [select_by_date Sample.db (lit "2026-06-01")].
Proof.
  rewrite (proj1 (@api_entry_defaults_to_today paragraph_marked
                    Sample.bare_request Sample.now
                    ltac:(intros s Hs; discriminate Hs))
             ltac:(apply str_le_iff; vm_compute; reflexivity)).
  vm_compute. reflexivity.
Defined.

(** X8: the page of [GET /] and the fragment of [GET /api/entry] agree
    for a date in range: the content region of the page holds exactly
    the fragment.  Out of range they differ: the fragment is the
    warning, while the page shows the "no data" placeholder. *)
Theorem page_holds_entry_fragment {marked : Marked} (c : Context)
  (now : Z) :
  let minDate := EARLIEST_DATE (env c) ?? Primary.DEFAULT_EARLIEST_DATE in
  let maxDate := Primary.formatJstDate now in
  let date := Primary.resolveDate (query (req c) (lit "date")) maxDate in
  exists page fragment : jsstring,
    fst (run (Primary.get_index c now)) = Fulfilled (html_response page) /\
    fst (run (Primary.get_api_entry c now))
    = Fulfilled (html_response fragment) /\
    (lex_le minDate date /\ lex_le date maxDate ->
     full_page fragment page) /\
    (~ (lex_le minDate date /\ lex_le date maxDate) ->
     fragment = OUT_OF_RANGE_WARNING /\
     full_page NO_DATA_PLACEHOLDER page).
Proof.
  cbv zeta.
  rewrite primary_get_index_unfold, primary_get_api_entry_unfold.
  cbv zeta. rewrite run_page, run_entry.
  unfold Primary.validateDateRange at 1 2.
  destruct (str_ge _ _ && str_le _ _) eqn:E.
  - do 2 eexists. split; [reflexivity|]. split; [reflexivity|].
    split; [|intros H; apply out_of_range_iff in H; congruence].
    intros _. rewrite renderEntriesPartial_eq. apply renderPage_full_page.
  - do 2 eexists. split; [reflexivity|]. split; [reflexivity|].
    split; [intros H; apply in_range_iff in H; congruence|].
    intros _. split; [reflexivity|].
    rewrite <- renderEntries_nil. apply renderPage_full_page.
Qed.

Lemma page_holds_entry_fragment_witness :
  exists page fragment : jsstring,
    fst (run (Primary.get_index (marked := paragraph_marked)
                (Sample.request (lit "2026-05-31")) Sample.now))
    = Fulfilled (html_response page) /\
    fst (run (Primary.get_api_entry (marked := paragraph_marked)
                (Sample.request (lit "2026-05-31")) Sample.now))
    = Fulfilled (html_response fragment) /\
    full_page fragment page.
Proof.
  pose proof (@page_holds_entry_fragment paragraph_marked
                (Sample.request (lit "2026-05-31")) Sample.now) as H.
  cbv zeta in H. destruct H as (page & fragment & Hp & Hf & Hin & _).
  exists page, fragment. split; [exact Hp|]. split; [exact Hf|].
  apply Hin. apply in_range_iff. vm_compute. reflexivity.
Defined.

(** X9: against the store, no route fails and no route runs anything
    but the select: every handler settles with a response, after no
    statement at all or after the one select bound to the resolved
    date. *)
Theorem routes_fulfil_with_at_most_one_select {marked : Marked}
  (c : Context) (now : Z) :
  let db := DB (env c) in
  let maxDate := Primary.formatJstDate now in
  let settles (requested : option jsstring) (route : Async Response) :=
    exists (response : Response) (log : list D1PreparedStatement),
      run route = (Fulfilled response, log) /\
      at_most_select db (Primary.resolveDate requested maxDate) log in
  settles (query (req c) (lit "date")) (Primary.get_index c now) /\
  settles (param (req c) (lit "date")) (Primary.get_date c now) /\
  settles (query (req c) (lit "date")) (Primary.get_api_entry c now) /\
  settles (query (req c) (lit "date")) (Legacy.get_api_entry c now).
Proof.
  cbv zeta.
  rewrite primary_get_index_unfold, primary_get_date_unfold,
    primary_get_api_entry_unfold, legacy_get_api_entry_unfold.
  cbv zeta. rewrite !run_page, !run_entry. unfold at_most_select.
  repeat split;
    match goal with
    | |- context [if ?b then _ else _] => destruct b
    end; do 2 eexists; split; try reflexivity; auto.
Qed.

(** X10: [GET /date/:date] serves what [GET /] serves for the same
    date: with the same bindings, a path parameter equal to the query
    parameter gives the same handler. *)
Theorem date_route_like_index {marked : Marked} (c1 c2 : Context)
  (now : Z) :
  env c1 = env c2 ->
  param (req c1) (lit "date") = query (req c2) (lit "date") ->
  Primary.get_date c1 now = Primary.get_index c2 now.
Proof.
  intros He Hd.
  rewrite primary_get_date_unfold, primary_get_index_unfold. cbv zeta.
  now rewrite He, Hd.
Qed.

Lemma date_route_like_index_witness :
  Primary.get_date (marked := paragraph_marked)
    (Sample.request (lit "2026-05-31")) Sample.now
  = Primary.get_index (marked := paragraph_marked)
      (Sample.request (lit "2026-05-31")) Sample.now.
Proof.
  apply (@date_route_like_index paragraph_marked); reflexivity.
Defined.

(** X11: [/api/meta] reports as [defaultDate] the very date that
    [/api/entry] of the same file acts on for the same request: the
    only statement the entry route may run is the select bound to
    it. *)
Theorem meta_default_date_is_entry_date {marked : Marked} (c : Context)
  (now : Z) :
  exists minDate maxDate defaultDate : jsstring,
    Legacy.get_api_meta c now
    = json_response [(lit "minDate", minDate); (lit "maxDate", maxDate);
                     (lit "defaultDate", defaultDate)] /\
    at_most_select (DB (env c)) defaultDate
      (snd (run (Legacy.get_api_entry c now))) /\
    (snd (run (Legacy.get_api_entry c now)) <> [] <->
     lex_le minDate defaultDate /\ lex_le defaultDate maxDate).
Proof.
  rewrite legacy_get_api_meta_unfold, legacy_get_api_entry_unfold.
  cbv zeta. do 3 eexists. split; [reflexivity|].
  rewrite run_entry. unfold at_most_select, Primary.validateDateRange.
  destruct (str_ge _ _ && str_le _ _) eqn:E; cbn [snd].
  - split; [now right|]. apply in_range_iff in E.
    split; [intros _; exact E | discriminate].
  - split; [now left|]. apply out_of_range_iff in E.
    split; [congruence | intros H; contradiction].
Qed.

(** X12: a date in range for which nothing is stored gives, at
    [GET /api/entry], the "no data" placeholder after the select was
    run: not the warning. *)
Theorem api_entry_no_data {marked : Marked} (c : Context) (now : Z) :
  let db := DB (env c) in
  let minDate := EARLIEST_DATE (env c) ?? Primary.DEFAULT_EARLIEST_DATE in
  let maxDate := Primary.formatJstDate now in
  let date := Primary.resolveDate (query (req c) (lit "date")) maxDate in
  lex_le minDate date /\ lex_le date maxDate ->
  (forall r, In r (trend_entries db) -> D1.date r <> date) ->
  run (Primary.get_api_entry c now)
  = (Fulfilled (html_response NO_DATA_PLACEHOLDER), [select_by_date db date]).
Proof.
  cbv zeta. intros Hin Hnone.
  rewrite primary_get_api_entry_unfold. cbv zeta. rewrite run_entry.
  unfold Primary.validateDateRange. apply in_range_iff in Hin. rewrite Hin.
  match goal with
  | |- context [where_date ?d ?t] =>
    assert (E : where_date d t = [])
  end.
  { match goal with
    | |- ?l = [] => destruct l as [|r l'] eqn:El; [reflexivity|]
    end.
    assert (Hr : In r (r :: l')) by now left.
    rewrite <- El in Hr. apply where_date_In in Hr.
    destruct Hr as [Hr Hd]. now apply Hnone in Hr. }
  rewrite E, renderEntriesPartial_eq. cbn [order_by_slot fold_right].
  now rewrite renderEntries_nil.
Qed.

Lemma api_entry_no_data_witness :
  run (Primary.get_api_entry (marked := paragraph_marked)
         (Sample.request (lit "2026-05-28")) Sample.now)
  = (Fulfilled (html_response NO_DATA_PLACEHOLDER),
     [select_by_date Sample.db (lit "2026-05-28")]).
Proof.
  apply (@api_entry_no_data paragraph_marked
           (Sample.request (lit "2026-05-28")) Sample.now).
  - apply in_range_iff. vm_compute. reflexivity.
  - intros r Hr.
    repeat (destruct Hr as [<-|Hr]; [vm_compute; discriminate|]).
    destruct Hr.
Defined.

(* ================================================================== *)
(** * More on the store accessor and the rendering *)
(* ================================================================== *)

Lemma sorted_distinct_slots (l : list Row) :
  StronglySorted slot_le l -> NoDup (map slot l) -> StronglySorted slot_lt l.
Proof.
  induction 1 as [|a l Hl IH Ha]; intros Hnd; [constructor|].
  cbn [map] in Hnd. inversion Hnd as [|? ? Hnotin Hnd']; subst.
  constructor; [now apply IH|].
  rewrite Forall_forall in *. intros x Hx.
  specialize (Ha x Hx). unfold slot_le in Ha. unfold slot_lt.
  assert (slot a <> slot x)
    by (intros E; apply Hnotin; rewrite E; now apply in_map).
  lia.
Qed.

(** X13: the result of [fetchEntriesForDate] does not depend on the
    order in which the entries were stored, as long as the entries of
    the date have pairwise different slots. *)
Theorem fetchEntriesForDate_any_insertion_order (db1 db2 : D1Database)
  (d : jsstring) :
  Permutation (trend_entries db1) (trend_entries db2) ->
  NoDup (map slot (where_date d (trend_entries db1))) ->
  fst (run (Primary.fetchEntriesForDate db1 d))
  = fst (run (Primary.fetchEntriesForDate db2 d)).
Proof.
  intros HP Hnd. rewrite !run_fetchEntriesForDate. cbn [fst].
  f_equal. symmetry.
  assert (HP' : Permutation (order_by_slot (where_date d (trend_entries db2)))
                  (order_by_slot (where_date d (trend_entries db1)))).
  { rewrite !order_by_slot_perm. symmetry. now apply where_date_perm. }
  apply sorted_perm_unique; [apply order_by_slot_sorted | | exact HP'].
  apply sorted_distinct_slots; [apply order_by_slot_sorted|].
  eapply Permutation_NoDup; [|exact Hnd].
  apply Permutation_map. symmetry. apply order_by_slot_perm.
Qed.

Lemma fetchEntriesForDate_any_insertion_order_witness :
  fst (run (Primary.fetchEntriesForDate Sample.db (lit "2026-05-31")))
  = fst (run (Primary.fetchEntriesForDate
                {| trend_entries :=
                     [Sample.morning; Sample.evening; Sample.earlier;
                      Sample.noon] |}
                (lit "2026-05-31"))).
Proof.
  apply fetchEntriesForDate_any_insertion_order.
  - unfold Sample.db. cbn [trend_entries].
    apply Permutation_sym.
    apply (perm_trans (l' := [Sample.morning; Sample.noon; Sample.evening;
                              Sample.earlier])).
    + apply perm_skip. apply Permutation_sym.
      apply (Permutation_cons_app [Sample.evening; Sample.earlier] []).
      reflexivity.
    + apply (perm_trans (l' := [Sample.noon; Sample.morning; Sample.evening;
                                Sample.earlier])); [apply perm_swap|].
      apply perm_skip.
      apply (perm_trans (l' := [Sample.morning; Sample.earlier;
                                Sample.evening]));
        [apply perm_skip, perm_swap | apply perm_swap].
  - vm_compute. repeat constructor; simpl; intuition discriminate.
Defined.

(** X14: rendering is compositional on lists that are not empty: the
    fragment of two lists joined is the two fragments joined. *)
Theorem renderEntries_app {marked : Marked} (es1 es2 : list Row) :
  es1 <> [] -> es2 <> [] ->
  toString (Primary.renderEntries (es1 ++ es2))
  = toString (Primary.renderEntries es1)
    ++ toString (Primary.renderEntries es2).
Proof.
  intros H1 H2.
  destruct es1 as [|a es1]; [congruence|].
  destruct es2 as [|b es2]; [congruence|].
  change ((a :: es1) ++ b :: es2) with (a :: (es1 ++ b :: es2)).
  rewrite !renderEntries_cons.
  change (a :: es1 ++ b :: es2) with ((a :: es1) ++ b :: es2).
  now rewrite map_app, concat_app.
Qed.

Lemma renderEntries_app_witness :
  toString (Primary.renderEntries (marked := paragraph_marked)
              ([Sample.morning] ++ [Sample.noon]))
  = toString (Primary.renderEntries (marked := paragraph_marked)
                [Sample.morning])
    ++ toString (Primary.renderEntries (marked := paragraph_marked)
                   [Sample.noon]).
Proof.
  apply (@renderEntries_app paragraph_marked); discriminate.
Defined.

(** X15: the format check is anchored at both ends: text before or
    after a date makes the whole string invalid, so [resolveDate]
    replaces it by the fallback. *)
Theorem isValidDateString_anchored (before s after f : jsstring) :
  Primary.isValidDateString s = true ->
  before ++ after <> [] ->
  Primary.isValidDateString (before ++ s ++ after) = false /\
  Primary.resolveDate (Some (before ++ s ++ after)) f = f.
Proof.
  intros Hs Hne.
  assert (Hv : forall x,
             Primary.isValidDateString x = true <-> MatchesDatePattern x)
    by (intros x; apply date_regexp_matches).
  assert (Hn : ~ MatchesDatePattern (before ++ s ++ after)).
  { intros H. apply MatchesDatePattern_length in H.
    apply Hv, MatchesDatePattern_length in Hs.
    rewrite !length_app in H.
    destruct before, after; simpl in *; try lia. congruence. }
  split.
  - destruct (Primary.isValidDateString (before ++ s ++ after)) eqn:E;
      [|reflexivity].
    now apply Hv in E.
  - apply resolveDate_unusable. intros x [= <-]. exact Hn.
Qed.

Lemma isValidDateString_anchored_witness :
  Primary.resolveDate (Some (lit "x" ++ lit "2026-05-31" ++ []))
    (lit "2026-06-01")
  = lit "2026-06-01".
Proof.
  apply (@isValidDateString_anchored (lit "x") (lit "2026-05-31") []).
  - vm_compute. reflexivity.
  - discriminate.
Defined.

Lemma escape_plain (s : jsstring) :
  Forall (fun c => IsDigit c \/ c = 45%N) s -> escape s = s.
Proof.
  induction 1 as [|c s Hc _ IH]; [reflexivity|].
  unfold escape in *. cbn [flat_map]. rewrite IH.
  replace (escape_unit c) with [c]; [reflexivity|].
  unfold escape_unit, IsDigit in *.
  repeat match goal with
         | |- context [N.eqb ?a ?b] => destruct (N.eqb_spec a b); [lia|]
         end.
  reflexivity.
Qed.

Lemma MatchesDatePattern_plain (s : jsstring) :
  MatchesDatePattern s -> Forall (fun c => IsDigit c \/ c = 45%N) s.
Proof.
  intros (y & m & d & _ & _ & _ & Dy & Dm & Dd & ->).
  repeat (apply Forall_app; split);
    try (eapply Forall_impl; [|eassumption]; intros; now left);
    repeat constructor; now right.
Qed.

Lemma escape_no_quote (s : jsstring) : ~ In 34%N (escape s).
Proof.
  unfold escape. induction s as [|c s IH]; [intros []|].
  cbn [flat_map]. rewrite in_app_iff. intros [H|H]; [|contradiction].
  unfold escape_unit in H.
  repeat match type of H with
         | context [N.eqb ?a ?b] =>
           destruct (N.eqb_spec a b);
           [vm_compute in H; intuition discriminate|]
         end.
  destruct H as [H|[]]. congruence.
Qed.

Section DatePicker.

Context {marked : Marked}.

Lemma picker_layout
  (p0 a n1 p1 b n2 p2 c n3 p3 d e q v0 v1 v2 rest : jsstring) :
  p0 = a ++ n1 ++ e -> p1 = q ++ b ++ n2 ++ e ->
  p2 = q ++ c ++ n3 ++ e -> p3 = q ++ d ->
  p0 ++ v0 ++ p1 ++ v1 ++ p2 ++ v2 ++ p3 ++ rest
  = a ++ (n1 ++ e ++ v0 ++ q) ++ b ++ (n2 ++ e ++ v1 ++ q) ++ c
      ++ (n3 ++ e ++ v2 ++ q) ++ d ++ rest.
Proof. intros -> -> -> ->. now rewrite <- !app_assoc. Qed.

(** X16: the page carries the date control of the template: the
    [value], [min] and [max] attributes, in this order, hold the
    escaped date, [minDate] and [maxDate].  Escaped text holds no
    double quote, so no value can end its attribute early; and a date
    of the shape [YYYY-MM-DD] is written as it is. *)
Theorem renderPage_date_control (date minDate maxDate : jsstring)
  (entries : list Row) :
  (exists a b c d : jsstring,
      toString (Primary.renderPage date entries minDate maxDate)
      = a ++ attribute (lit "value") (escape date)
          ++ b ++ attribute (lit "min") (escape minDate)
          ++ c ++ attribute (lit "max") (escape maxDate) ++ d) /\
  (forall s, ~ In 34%N (escape s)) /\
  (MatchesDatePattern date -> escape date = date).
Proof.
  split; [|split; [apply escape_no_quote|]].
  - unfold Primary.renderPage, html, attribute. cbn [toString].
    rewrite !html_buffer_cons, html_buffer_last. cbn [render].
    match goal with
    | |- exists a b c d,
          ?p0 ++ ?v0 ++ ?p1 ++ ?v1 ++ ?p2 ++ ?v2 ++ ?p3 ++ ?rest = _ =>
      exists (firstn (List.length p0 - 7) p0),
             (firstn (List.length p1 - 6) (skipn 1 p1)),
             (firstn (List.length p2 - 6) (skipn 1 p2)),
             (skipn 1 p3 ++ rest);
      rewrite (@picker_layout p0 (firstn (List.length p0 - 7) p0)
                 (lit "value") p1 (firstn (List.length p1 - 6) (skipn 1 p1))
                 (lit "min") p2 (firstn (List.length p2 - 6) (skipn 1 p2))
                 (lit "max") p3 (skipn 1 p3) (lit "=`") (lit "`")
                 v0 v1 v2 rest)
        by (vm_compute; reflexivity);
      now rewrite <- !app_assoc
    end.
  - intros H. now apply escape_plain, MatchesDatePattern_plain.
Qed.

End DatePicker.

Lemma renderPage_date_control_witness :
  escape (lit "2026-05-31") = lit "2026-05-31".
Proof.
  apply (proj2 (proj2 (@renderPage_date_control paragraph_marked
                         (lit "2026-05-31") (lit "2025-12-25")
                         (lit "2026-06-01") []))).
  exists (lit "2026"), (lit "05"), (lit "31"). vm_compute.
  repeat split; repeat constructor; discriminate.
Defined.

(* ================================================================== *)
(** * The two route files *)
(* ================================================================== *)

(** X17: every helper of the legacy route file returns what its
    namesake of the primary route file returns. *)
Theorem legacy_helpers_agree {marked : Marked} :
  Legacy.DEFAULT_EARLIEST_DATE = Primary.DEFAULT_EARLIEST_DATE /\
  (forall now, Legacy.formatJstDate now = Primary.formatJstDate now) /\
  (forall value,
      Legacy.isValidDateString value = Primary.isValidDateString value) /\
  (forall input fallback,
      Legacy.resolveDate input fallback
      = Primary.resolveDate input fallback) /\
  (forall d min max,
      Legacy.validateDateRange d min max
      = Primary.validateDateRange d min max) /\
  (forall db d,
      Legacy.fetchEntriesForDate db d = Primary.fetchEntriesForDate db d) /\
  (forall entry, Legacy.renderEntryHtml entry = Primary.renderEntryHtml entry)
  /\
  (forall entries,
      Legacy.renderEntries entries = Primary.renderEntries entries).
Proof.
  split; [apply legacy_DEFAULT_EARLIEST_DATE|].
  split; [reflexivity|]. split; [reflexivity|]. split; [reflexivity|].
  split; [reflexivity|]. split; [apply legacy_fetchEntriesForDate|].
  split; [|apply renderEntries_legacy].
  intros entry.
  unfold Legacy.renderEntryHtml, Primary.renderEntryHtml,
    Legacy.slotLabel, Primary.slotLabel.
  reflexivity.
Qed.

Section Placeholder.

Context {marked : Marked}.

Lemma app_head (c : N) (p p' r : jsstring) :
  p = c :: p' -> p ++ r = c :: (p' ++ r).
Proof. intros ->. reflexivity. Qed.

Lemma renderEntryHtml_starts_with_newline (e : Row) :
  exists rest, toString (Primary.renderEntryHtml e) = 10%N :: rest.
Proof.
  rewrite renderEntryHtml_fragment. unfold entry_fragment.
  match goal with
  | |- exists rest, ?p ++ ?r = _ =>
    exists (skipn 1 p ++ r); apply app_head; vm_compute; reflexivity
  end.
Qed.

(** X18: the "no data" placeholder is rendered for the empty list and
    for no other list: every other fragment starts with the line break
    of an entry block. *)
Theorem renderEntries_placeholder_iff (es : list Row) :
  toString (Primary.renderEntries es) = NO_DATA_PLACEHOLDER <-> es = [].
Proof.
  split; [|intros ->; apply renderEntries_nil].
  destruct es as [|e es]; [reflexivity|].
  rewrite renderEntries_cons. cbn [map List.concat].
  destruct (renderEntryHtml_starts_with_newline e) as [rest ->].
  assert (E : NO_DATA_PLACEHOLDER = 60%N :: skipn 1 NO_DATA_PLACEHOLDER)
    by (vm_compute; reflexivity).
  rewrite E. discriminate.
Qed.

End Placeholder.

(* ================================================================== *)
(** * Examples *)
(* ================================================================== *)

Example lit_ascii : lit "a-`" = [97; 45; 34]%N.
Proof. reflexivity. Qed.

Example lit_kanji : lit "取得·" = [0x53D6; 0x5F97; 0xB7]%N.
Proof. reflexivity. Qed.

Example escape_markup :
  escape (lit "a < b & `c`") = lit "a &lt; b &amp; &quot;c&quot;".
Proof. reflexivity. Qed.

Example iso_2026 :
  toISOString 1780272000000 = lit "2026-06-01T00:00:00.000Z".
Proof. reflexivity. Qed.

Example iso_leap_day :
  toISOString (1709218799000 + 32400000) = lit "2024-02-29T23:59:59.000Z".
Proof. reflexivity. Qed.

Example iso_before_epoch :
  toISOString (-32401000) = lit "1969-12-31T14:59:59.000Z".
Proof. reflexivity. Qed.

Example iso_last_four_digit_year :
  toISOString 253402300799000 = lit "9999-12-31T23:59:59.000Z".
Proof. reflexivity. Qed.

Example iso_expanded_year :
  toISOString 253402300800000 = lit "+010000-01-01T00:00:00.000Z".
Proof. reflexivity. Qed.

(** 2025-12-31T15:00:00Z is already the first of January at UTC+9. *)
Example formatJstDate_new_year :
  Primary.formatJstDate 1767193200000 = lit "2026-01-01".
Proof. vm_compute. reflexivity. Qed.

Example in_range_lower_bound :
  Primary.validateDateRange
    (lit "2025-12-25") (lit "2025-12-25") (lit "2026-01-01") = true.
Proof. reflexivity. Qed.

Example out_of_range_day_before :
  Primary.validateDateRange
    (lit "2025-12-24") (lit "2025-12-25") (lit "2026-01-01") = false.
Proof. reflexivity. Qed.

(** The format check is syntactic: month 13 and day 40 pass it. *)
Example resolveDate_not_calendrical :
  Primary.resolveDate (Some (lit "2025-13-40")) (lit "2026-06-01")
  = lit "2025-13-40".
Proof. vm_compute. reflexivity. Qed.

Example resolveDate_trailing_text :
  Primary.resolveDate (Some (lit "2025-12-25T")) (lit "2026-06-01")
  = lit "2026-06-01".
Proof. vm_compute. reflexivity. Qed.

(** [?date=] behaves like a request without [date]. *)
Example api_entry_empty_date :
  Primary.get_api_entry (marked := paragraph_marked)
    (Sample.request []) Sample.now
  = Primary.get_api_entry (marked := paragraph_marked)
      Sample.bare_request Sample.now.
Proof. reflexivity. Qed.

Example api_entry_sample_day :
  fst (run (Primary.get_api_entry (marked := paragraph_marked)
              (Sample.request (lit "2026-05-31")) Sample.now))
  = Fulfilled
      (html_response
         (entry_fragment LABEL_0000 (lit "2026-05-30T15:00:05Z")
            (lit "<p># Morning</p>")
          ++ entry_fragment LABEL_1200 (lit "2026-05-31T03:00:07Z")
               (lit "<p># Noon</p>"))).
Proof. vm_compute. reflexivity. Qed.

(** Two entries of one slot come back in the order of the table. *)
Example fetch_equal_slots_in_table_order :
  fst (run (Primary.fetchEntriesForDate Sample.twice (lit "2026-05-31")))
  = Fulfilled (trend_entries Sample.twice).
Proof. vm_compute. reflexivity. Qed.

Example api_entry_no_rows :
  run (Primary.get_api_entry (marked := paragraph_marked)
         (Sample.request (lit "2026-05-28")) Sample.now)
  = (Fulfilled (html_response NO_DATA_PLACEHOLDER),
     [select_by_date Sample.db (lit "2026-05-28")]).
Proof. vm_compute. reflexivity. Qed.
